(** * SlideGen: the server actions of [src/app/generate/actions.ts]

    A shallow embedding of the content pipeline (video metadata, subtitle
    parsing, the two language-model calls and the deck renderer) together
    with the properties its specification states about it.

    The actions are [async] functions whose calls are awaited one after the
    other, so each is embedded as a computation in a small monad [M] that
    threads the trace of effects performed so far and ends either by
    returning a value or by throwing.  The services the actions talk to
    (axios, xmldom, the OpenAI client, [crypto], pptxgenjs' writer) are not
    part of the repository: their answers are taken from a [Runtime]
    record, one field per call the source makes. *)

From Stdlib Require Import String Ascii List ZArith QArith Bool Lia Lqa.
From Stdlib Require Import DecimalString DecimalZ DecimalPos.
From Stdlib Require Import Floats Uint63.
Import ListNotations.

Set Warnings "-register-all,-inexact-float".
Close Scope Q_scope.
Open Scope string_scope.
Open Scope list_scope.

(* ================================================================== *)
(** * JavaScript values, errors and the effect monad *)
(* ================================================================== *)

Module Js.

(** The values [JSON.parse] can produce, plus [undefined], which reading
    a missing property yields.  A JSON number is a finite double, hence a
    rational; an object is its list of properties. *)
Inductive Value : Type :=
| Undefined
| Null
| Bool (b : bool)
| Num (q : Q)
| Str (s : string)
| Arr (items : list Value)
| Obj (props : list (string * Value)).

(** What can be thrown: an object with a [name] and a [message]. *)
Record Error : Type := mkError { name : string; message : string }.

(** [new Error(msg)] *)
Definition new_Error (msg : string) : Error := mkError "Error" msg.

(** The error the engine raises on [undefined.p], [null.p] or on calling
    something that is not a function. *)
Definition TypeError (msg : string) : Error := mkError "TypeError" msg.

(** ToBoolean *)
Definition truthy (v : Value) : bool :=
  match v with
  | Undefined | Null => false
  | Bool b => b
  | Num q => negb (Z.eqb (Qnum q) 0)
  | Str s => negb (String.eqb s "")
  | Arr _ | Obj _ => true
  end.

(** [a || b] *)
Definition or (a b : Value) : Value := if truthy a then a else b.

(** [v === s] for a string literal [s] *)
Definition strict_eq_string (v : Value) (s : string) : bool :=
  match v with
  | Str t => String.eqb t s
  | _ => false
  end.

(** Own-property lookup in an object. *)
Fixpoint lookup (k : string) (props : list (string * Value)) : option Value :=
  match props with
  | [] => None
  | (k', v) :: rest => if String.eqb k k' then Some v else lookup k rest
  end.

(** The property names the source reads from untyped response data.  None
    of them is defined on the prototype of a string, number, boolean or
    array, so reading one from such a value yields [undefined]. *)
Inductive PropName : Type := lengthSeconds | subtitles | languageCode | url.

Definition prop_string (p : PropName) : string :=
  match p with
  | lengthSeconds => "lengthSeconds"
  | subtitles => "subtitles"
  | languageCode => "languageCode"
  | url => "url"
  end.

(** The result of awaiting a call: it returns or it throws. *)
Inductive Outcome (A : Type) : Type :=
| Returns (a : A)
| Throws (e : Error).
Arguments Returns {A} a.
Arguments Throws {A} e.

End Js.

Import Js.

(* ================================================================== *)
(** * The document object model of xmldom *)
(* ================================================================== *)

Module Dom.

(** The nodes an XML document is made of.  [childNodes] are in document
    order. *)
Inductive Node : Type :=
| Element (tagName : string) (attributes : list (string * string))
          (childNodes : list Node)
| Text (data : string)
| CDATASection (data : string)
| Comment (data : string)
| ProcessingInstruction (target data : string)
| DocumentType (name : string).

Record Document : Type := mkDocument { documentChildNodes : list Node }.

Definition is_comment_or_pi (n : Node) : bool :=
  match n with
  | Comment _ | ProcessingInstruction _ _ => true
  | _ => false
  end.

(** [node.nodeValue] of a node that is not an element. *)
Definition nodeValue (n : Node) : option string :=
  match n with
  | Element _ _ _ => None
  | Text d | CDATASection d | Comment d => Some d
  | ProcessingInstruction _ d => Some d
  | DocumentType _ => None
  end.

Definition string_of_option (o : option string) : string :=
  match o with Some s => s | None => "" end.

(** [getTextContent]: of an element, the text contents of its children
    joined, comments and processing instructions skipped; of any other
    node its [nodeValue]. *)
Fixpoint textContent (n : Node) : option string :=
  match n with
  | Element _ _ kids =>
      Some ((fix join (l : list Node) : string :=
               match l with
               | [] => ""
               | k :: rest =>
                   ((if is_comment_or_pi k then ""
                     else string_of_option (textContent k)) ++ join rest)%string
               end) kids)
  | _ => nodeValue n
  end.

Definition tag_matches (tag : string) (n : Node) : bool :=
  match n with
  | Element name _ _ => String.eqb tag "*" || String.eqb name tag
  | _ => false
  end.

(** The visit of [getElementsByTagName]: the node itself when it is a
    matching element, then its descendants, children left to right. *)
Fixpoint visit (tag : string) (n : Node) : list Node :=
  (if tag_matches tag n then [n] else []) ++
  match n with
  | Element _ _ kids => flat_map (visit tag) kids
  | _ => []
  end.

(** [doc.getElementsByTagName(tag)]: the matching elements below the
    document, in document order. *)
Definition getElementsByTagName (doc : Document) (tag : string) : list Node :=
  flat_map (visit tag) (documentChildNodes doc).

(** The number of elements named [tag] in a subtree, counted on the tree. *)
Fixpoint count_in_node (tag : string) (n : Node) : nat :=
  (if tag_matches tag n then 1 else 0) +
  match n with
  | Element _ _ kids => list_sum (map (count_in_node tag) kids)
  | _ => 0
  end.

Definition count_elements (tag : string) (doc : Document) : nat :=
  list_sum (map (count_in_node tag) (documentChildNodes doc)).

(** Document order: a node comes before its descendants, and the subtree
    of a child before the subtrees of the children after it. *)
Fixpoint subtree (n : Node) : list Node :=
  n :: match n with
       | Element _ _ kids => flat_map subtree kids
       | _ => []
       end.

Definition descendants (doc : Document) : list Node :=
  flat_map subtree (documentChildNodes doc).

End Dom.

(* ================================================================== *)
(** * [path.join] of Node.js (POSIX) *)
(* ================================================================== *)

Module Path.

(** [s.split('/')] *)
Fixpoint split (s : string) : list string :=
  match s with
  | EmptyString => [""]
  | String c rest =>
      if Ascii.eqb c "/" then "" :: split rest
      else match split rest with
           | seg :: more => String c seg :: more
           | [] => [String c ""]
           end
  end.

(** One segment of [normalizeString]; [acc] holds the segments kept so
    far, the last one first.  Empty segments and [.] are dropped, [..]
    removes the segment before it, or is kept when nothing can be removed
    and the path is relative. *)
Definition step (allowAboveRoot : bool) (acc : list string) (seg : string)
  : list string :=
  if String.eqb seg "" || String.eqb seg "." then acc
  else if String.eqb seg ".." then
    match acc with
    | last :: before =>
        if String.eqb last ".."
        then (if allowAboveRoot then ".." :: acc else acc)
        else before
    | [] => if allowAboveRoot then [".."] else []
    end
  else seg :: acc.

Definition normalizeString (path : string) (allowAboveRoot : bool) : string :=
  String.concat "/" (rev (fold_left (step allowAboveRoot) (split path) [])).

Definition starts_with_slash (s : string) : bool :=
  match s with
  | String c _ => Ascii.eqb c "/"
  | EmptyString => false
  end.

Fixpoint ends_with_slash (s : string) : bool :=
  match s with
  | EmptyString => false
  | String c EmptyString => Ascii.eqb c "/"
  | String _ rest => ends_with_slash rest
  end.

(** [path.posix.normalize] *)
Definition normalize (path : string) : string :=
  if String.eqb path "" then "."
  else
    let isAbsolute := starts_with_slash path in
    let trailingSeparator := ends_with_slash path in
    let p := normalizeString path (negb isAbsolute) in
    if String.eqb p "" then
      (if isAbsolute then "/" else if trailingSeparator then "./" else ".")
    else
      let p := if trailingSeparator then (p ++ "/")%string else p in
      if isAbsolute then ("/" ++ p)%string else p.

(** [path.posix.join(...args)]: the non-empty arguments joined by [/],
    then normalized. *)
Definition join (args : list string) : string :=
  match filter (fun a => negb (String.eqb a "")) args with
  | [] => "."
  | parts => normalize (String.concat "/" parts)
  end.

End Path.

(** [s.includes(u)] *)
Fixpoint includes (s u : string) : bool :=
  String.prefix u s ||
  match s with
  | EmptyString => false
  | String _ rest => includes rest u
  end.

(** The line feed that separates the lines of a template literal. *)
Definition LF : string := String (ascii_of_nat 10) EmptyString.

(** [String(n)] of an integral number, as a template literal prints it.
    JavaScript prints integers of magnitude below 1e21 in plain decimal. *)
Definition Number_toString (n : Z) : string :=
  NilZero.string_of_int (Z.to_int n).

(* ================================================================== *)
(** * The presentation object of pptxgenjs *)
(* ================================================================== *)

Module Pptx.

(** A coordinate is a number of inches or a percentage string. *)
Inductive Coord : Type :=
| Inches (q : Q)
| Percent (p : Z).

Record TextProps : Type := mkTextProps {
  x : Coord;
  y : Coord;
  w : Coord;
  h : Coord;
  fontSize : Z;
  bold : option bool;
  color : string;
  align : string;
  fontFace : string;
  bullet : option bool
}.

Record TextObject : Type := mkTextObject {
  text : string;
  options : TextProps
}.

Record Slide : Type := mkSlide {
  background : option string;
  objects : list TextObject
}.

Record Presentation : Type := mkPresentation { slides : list Slide }.

(** [new pptxgen()] *)
Definition new_pptxgen : Presentation := mkPresentation [].

(** A slide object is shared between the presentation and the variable
    the caller holds: the handle is its position in [slides]. *)
Definition SlideRef : Type := nat.

Fixpoint update {A : Type} (i : nat) (f : A -> A) (l : list A) : list A :=
  match l, i with
  | [], _ => []
  | a :: rest, O => f a :: rest
  | a :: rest, S j => a :: update j f rest
  end.

(** [pptx.addSlide()] *)
Definition addSlide (pptx : Presentation) : Presentation * SlideRef :=
  (mkPresentation (slides pptx ++ [mkSlide None []]), List.length (slides pptx)).

(** [slide.background = { color }] *)
Definition set_background (slide : SlideRef) (c : string) (pptx : Presentation)
  : Presentation :=
  mkPresentation
    (update slide (fun s => mkSlide (Some c) (objects s)) (slides pptx)).

(** [slide.addText(text, options)] *)
Definition addText (slide : SlideRef) (t : string) (o : TextProps)
           (pptx : Presentation) : Presentation :=
  mkPresentation
    (update slide
       (fun s => mkSlide (background s) (objects s ++ [mkTextObject t o]))
       (slides pptx)).

End Pptx.

(** [array.forEach((item, index) => ...)] with the callback acting on a
    state [St]; [forEach_from] is the loop from position [index] on. *)
Fixpoint forEach_from {A St : Type} (f : St -> A -> nat -> St) (l : list A)
         (index : nat) (s : St) : St :=
  match l with
  | [] => s
  | a :: rest => forEach_from f rest (S index) (f s a index)
  end.

Definition forEach {A St : Type} (f : St -> A -> nat -> St) (l : list A) (s : St)
  : St :=
  forEach_from f l 0 s.

(* ================================================================== *)
(** * The types of [actions.ts] and of the services it calls *)
(* ================================================================== *)

(** [type VideoMetaData].  The fields are filled from untyped response
    data, so they hold JavaScript values. *)
Module VideoMetaData.
Record t : Type := mk { length : Value; subtitlesURL : Value }.
End VideoMetaData.

(** [type SubtitleItem] *)
Module SubtitleItem.
Record t : Type := mk { text : string }.
End SubtitleItem.

(** [type SlideContent] *)
Module SlideContent.
Record t : Type := mk { title : string; content : list string }.
End SlideContent.

(** [type TitleDescription = z.infer<typeof TitleAndDescriptionSchema>] *)
Module TitleDescription.
Record t : Type := mk { title : string; description : string }.
End TitleDescription.

(** [z.infer<typeof arrayOfObjectsSchema>] *)
Module ArrayOfObjects.
Record t : Type := mk { arrayOfObjects : list SlideContent.t }.
End ArrayOfObjects.

(** The two zod schemas, indexed by the type they validate. *)
Inductive Schema : Type -> Type :=
| TitleAndDescriptionSchema : Schema TitleDescription.t
| arrayOfObjectsSchema : Schema ArrayOfObjects.t.

(** [zodResponseFormat(schema, name)] *)
Record ResponseFormat (T : Type) : Type := zodResponseFormat {
  format_schema : Schema T;
  format_name : string
}.
Arguments zodResponseFormat {T} _ _.
Arguments format_schema {T} _.
Arguments format_name {T} _.

Record ChatMessage : Type := mkChatMessage { role : string; content : string }.

(** The argument of [openai.beta.chat.completions.parse]. *)
Record ChatRequest (T : Type) : Type := mkChatRequest {
  messages : list ChatMessage;
  model : string;
  response_format : ResponseFormat T
}.
Arguments mkChatRequest {T} _ _ _.
Arguments messages {T} _.
Arguments model {T} _.
Arguments response_format {T} _.

(** What [parse] resolves to.  The client validates the payload against
    the schema of the request, so [parsed] is a [T] or [null]; the source
    guards [message] with [?.], so it may be missing as well. *)
Record ParsedMessage (T : Type) : Type := mkParsedMessage { parsed : option T }.
Arguments mkParsedMessage {T} _.
Arguments parsed {T} _.

Record ParsedChoice (T : Type) : Type := mkParsedChoice {
  message : option (ParsedMessage T)
}.
Arguments mkParsedChoice {T} _.
Arguments message {T} _.

Record ParsedChatCompletion (T : Type) : Type := mkParsedChatCompletion {
  choices : list (ParsedChoice T)
}.
Arguments mkParsedChatCompletion {T} _.
Arguments choices {T} _.

(** The [options] object handed to [axios.request]. *)
Record AxiosRequestConfig : Type := mkAxiosRequestConfig {
  method : string;
  request_url : string;
  params : list (string * string);
  headers : list (string * option string)
}.

Record AxiosResponse : Type := mkAxiosResponse { data : Value }.

(** The effects an action performs, in the order it performs them. *)
Inductive Effect : Type :=
| console_error (error : Error)
| axios_get_call (url : string)
| axios_request_call (options : AxiosRequestConfig)
| parseFromString_call (source : Value) (mimeType : string)
| openai_parse_call {T : Type} (request : ChatRequest T)
| randomUUID_call
| writeFile_call (fileName : string) (pptx : Pptx.Presentation).

(** The world the actions run in: what each outside call answers. *)
Record Runtime : Type := mkRuntime {
  process_env : string -> option string;
  axios_get : string -> Outcome AxiosResponse;
  axios_request : AxiosRequestConfig -> Outcome AxiosResponse;
  (** [new DOMParser().parseFromString]: the document, or [undefined] when
      the parser built none.  What the parser prints through its default
      error handler is not recorded in the trace. *)
  parseFromString : Value -> string -> Outcome (option Dom.Document);
  openai_parse : forall T : Type, ChatRequest T -> Outcome (ParsedChatCompletion T);
  randomUUID : string;
  writeFile : string -> Pptx.Presentation -> Outcome string
}.

(** ** The monad *)

Definition Trace : Type := list Effect.

Definition M (A : Type) : Type := Trace -> Outcome A * Trace.

Definition ret {A : Type} (a : A) : M A := fun tr => (Returns a, tr).

Definition throw {A : Type} (e : Error) : M A := fun tr => (Throws e, tr).

Definition bind {A B : Type} (m : M A) (k : A -> M B) : M B :=
  fun tr =>
    match m tr with
    | (Returns a, tr') => k a tr'
    | (Throws e, tr') => (Throws e, tr')
    end.

(** [try { body } catch (error) { handler }] *)
Definition try_catch {A : Type} (body : M A) (handler : Error -> M A) : M A :=
  fun tr =>
    match body tr with
    | (Returns a, tr') => (Returns a, tr')
    | (Throws e, tr') => handler e tr'
    end.

(** An awaited outside call: it is recorded, then returns or throws. *)
Definition perform {A : Type} (ev : Effect) (o : Outcome A) : M A :=
  fun tr => (o, tr ++ [ev]).

Declare Scope js_scope.
Delimit Scope js_scope with js.
Notation "x <- m ;; k" := (bind m (fun x => k))
  (at level 61, m at next level, right associativity) : js_scope.
Notation "m ;; k" := (bind m (fun _ => k))
  (at level 61, right associativity) : js_scope.
Open Scope js_scope.

(** ** Reading untyped data *)

(** [v == null]: [undefined] or [null]. *)
Definition nullish (v : Value) : bool :=
  match v with
  | Undefined | Null => true
  | _ => false
  end.

(** What [v.p] evaluates to when [v] is neither [undefined] nor [null]. *)
Definition property (v : Value) (p : PropName) : Value :=
  match v with
  | Obj props =>
      match lookup (prop_string p) props with
      | Some x => x
      | None => Undefined
      end
  | _ => Undefined
  end.

(** [v.p] *)
Definition get_prop (v : Value) (p : PropName) : M Value :=
  if nullish v
  then throw (TypeError ("Cannot read properties of undefined or null (reading '"
                           ++ prop_string p ++ "')")%string)
  else ret (property v p).

(** [v?.p] *)
Definition get_prop_optional (v : Value) (p : PropName) : M Value :=
  if nullish v then ret Undefined else get_prop v p.

(** The loop of [Array.prototype.find]: the first item the callback
    accepts, [undefined] when there is none; a throwing callback ends it. *)
Fixpoint find_loop (pred : Value -> M bool) (items : list Value) : M Value :=
  match items with
  | [] => ret Undefined
  | item :: rest =>
      b <- pred item ;;
      if b then ret item else find_loop pred rest
  end.

(** [v.find(pred)]: only an array has the method. *)
Definition find (v : Value) (pred : Value -> M bool) : M Value :=
  match v with
  | Arr items => find_loop pred items
  | Undefined | Null =>
      throw (TypeError "Cannot read properties of undefined or null (reading 'find')")
  | _ => throw (TypeError "find is not a function")
  end.

(* ================================================================== *)
(** * The actions *)
(* ================================================================== *)

(** [console.error(error)] *)
Definition log_error (error : Error) : M unit :=
  perform (console_error error) (Returns tt).

(** [export const CreatePowerpoint = async (videoId: string) => { }] *)
Definition CreatePowerpoint (rt : Runtime) (videoId : string) : M Value :=
  ret Undefined.

(** [s || d] for [s : string | null] *)
Definition string_or (s : option string) (d : string) : string :=
  match s with
  | Some t => if String.eqb t "" then d else t
  | None => d
  end.

(** [doc.getElementsByTagName(tag)] where [doc] may be [undefined]. *)
Definition getElementsByTagName_of (doc : option Dom.Document) (tag : string)
  : M (list Dom.Node) :=
  match doc with
  | Some d => ret (Dom.getElementsByTagName d tag)
  | None =>
      throw (TypeError
               "Cannot read properties of undefined (reading 'getElementsByTagName')")
  end.

(** [parseXMLContent(url): Promise<SubtitleItem[] | null>]; [None] stands
    for [null]. *)
Definition parseXMLContent (rt : Runtime) (url : string)
  : M (option (list SubtitleItem.t)) :=
  try_catch
    (res <- perform (axios_get_call url) (axios_get rt url) ;;
     doc <- perform (parseFromString_call (data res) "application/xml")
                    (parseFromString rt (data res) "application/xml") ;;
     textElements <- getElementsByTagName_of doc "text" ;;
     ret (Some (map (fun element =>
                       SubtitleItem.mk (string_or (Dom.textContent element) ""))
                    textElements)))
    (fun error =>
       log_error error ;;
       throw (new_Error "Failed to parse XML content")).

Definition video_info_options (rt : Runtime) (videoId : string)
  : AxiosRequestConfig :=
  mkAxiosRequestConfig
    "GET"
    "https://yt-api.p.rapidapi.com/video/info"
    [("id", videoId)]
    [("x-rapidapi-key", process_env rt "RAPID_API_KEY");
     ("x-rapidapi-host", Some "yt-api.p.rapidapi.com")].

(** [GetVideoLengthAndSubtitles(videoId): Promise<VideoMetaData>] *)
Definition GetVideoLengthAndSubtitles (rt : Runtime) (videoId : string)
  : M VideoMetaData.t :=
  try_catch
    (let options := video_info_options rt videoId in
     res <- perform (axios_request_call options) (axios_request rt options) ;;
     len <- get_prop (data res) lengthSeconds ;;
     outer <- get_prop (data res) subtitles ;;
     inner <- get_prop outer subtitles ;;
     found <- find inner (fun subtitle =>
                code <- get_prop subtitle languageCode ;;
                ret (strict_eq_string code "en")) ;;
     link <- get_prop_optional found url ;;
     ret (VideoMetaData.mk len (Js.or link Null)))
    (fun error =>
       log_error error ;;
       throw (new_Error "Failed to get video length and subtitles")).

(** [completion.choices[0].message?.parsed] *)
Definition first_parsed {T : Type} (completion : ParsedChatCompletion T)
  : M (option T) :=
  match choices completion with
  | [] => throw (TypeError "Cannot read properties of undefined (reading 'message')")
  | choice :: _ =>
      ret (match message choice with
           | Some m => parsed m
           | None => None
           end)
  end.

Definition title_promptTemplate (transcript : string) : string :=
  String.concat LF
    ["";
     "        Generate a title and description for this Powerpoint presentation based on the following transcript. ";
     "        Requirements: ";
     "        - Title should be fewer than 20 words ";
     "        - description should be fewer than 35 words ";
     "        - Focus on content rather than speaker ";
     "        - make sure the output is in English ";
     "";
     "        Transcript: " ++ transcript;
     "    "]%string.

Definition title_request (transcript : string) : ChatRequest TitleDescription.t :=
  mkChatRequest
    [mkChatMessage "system"
       "You are a helpful assistant designed to generate titles and descriptions";
     mkChatMessage "user" (title_promptTemplate transcript)]
    "gpt-4o-mini"
    (zodResponseFormat TitleAndDescriptionSchema "title").

(** [CreateTitleAndDescription(transcript): Promise<TitleDescription>] *)
Definition CreateTitleAndDescription (rt : Runtime) (transcript : string)
  : M TitleDescription.t :=
  let request := title_request transcript in
  try_catch
    (completion <- perform (openai_parse_call request) (openai_parse rt _ request) ;;
     res <- first_parsed completion ;;
     match res with
     | None => throw (new_Error "Failed to generate title and description")
     | Some r => ret r
     end)
    (fun error =>
       log_error error ;;
       throw (new_Error "Failed to generate title and description")).

Definition slides_promptTemplate (text : string) (slideCount : Z) : string :=
  String.concat LF
    ["";
     "        Condense and tidy up the following text to make it suitable for a Powerpoint presentation. Transform it ";
     "        into an array of objects. I have provided the schema for the output. Make sure that the content array has between 3 and 4 items, ";
     "        and each content string should be between 160 and 170 characters. You can add to the content based on the transcript.. ";
     "        The length of the array should be " ++ Number_toString slideCount ++ ".";
     "        The text to process is as follows: " ++ text;
     "    "]%string.

Definition slides_request (text : string) (slideCount : Z)
  : ChatRequest ArrayOfObjects.t :=
  mkChatRequest
    [mkChatMessage "system"
       "You are a helpful assistant designed to convert text into objects. You output JSON based on a schema I provide.";
     mkChatMessage "user" (slides_promptTemplate text slideCount)]
    "gpt-4o-mini"
    (zodResponseFormat arrayOfObjectsSchema "arrayOfObjects").

(** The default value of a parameter: [slideCount = 10]. *)
Definition default_to (d : Z) (arg : option Z) : Z :=
  match arg with
  | Some n => n
  | None => d
  end.

(** [ConvertToObjects(text, slideCount = 10): Promise<SlideContent[] | null>];
    an omitted [slideCount] is [None], and so is a [null] result. *)
Definition ConvertToObjects (rt : Runtime) (text : string) (slideCount : option Z)
  : M (option (list SlideContent.t)) :=
  let slideCount := default_to 10 slideCount in
  let request := slides_request text slideCount in
  try_catch
    (completion <- perform (openai_parse_call request) (openai_parse rt _ request) ;;
     res <- first_parsed completion ;;
     match res with
     | None => throw (new_Error "Failed to convert text to objects")
     | Some r => ret (Some (ArrayOfObjects.arrayOfObjects r))
     end)
    (fun error =>
       log_error error ;;
       throw (new_Error "Failed to convert text to objects")).

(** The text options of the renderer, literal by literal. *)
Definition title_text_options : Pptx.TextProps :=
  Pptx.mkTextProps (Pptx.Inches 0) (Pptx.Percent 40) (Pptx.Percent 100)
    (Pptx.Inches 1) 33 (Some true) "003366" "center" "Helvetica" None.

Definition description_text_options : Pptx.TextProps :=
  Pptx.mkTextProps (Pptx.Inches 0) (Pptx.Percent 58) (Pptx.Percent 100)
    (Pptx.Inches 0.75) 18 None "888888" "center" "Helvetica" None.

Definition heading_text_options : Pptx.TextProps :=
  Pptx.mkTextProps (Pptx.Inches 0.5) (Pptx.Inches 0.5) (Pptx.Inches 8.5)
    (Pptx.Inches 1) 32 (Some true) "003366" "center" "Arial" None.


(** The options of the bullet at [index]: [y: 1.8 + index * 1].  In the
    deck the literals are read as exact decimals, which is within one
    rounding of [bullet_y_binary64]: order and strict bounds on [y] carry
    over to the doubles, exact equalities do not. *)
Definition bullet_text_options (index : nat) : Pptx.TextProps :=
  Pptx.mkTextProps (Pptx.Inches 1)
    (Pptx.Inches (1.8 + inject_Z (Z.of_nat index) * 1))
    (Pptx.Inches 8) (Pptx.Inches 0.75) 15 None "333333" "left" "Arial"
    (Some true).

(** The body of [slides.forEach(({ title, content }) => ...)]. *)
Definition add_content_slide (pptx : Pptx.Presentation) (entry : SlideContent.t)
           (_ : nat) : Pptx.Presentation :=
  let (pptx, slide) := Pptx.addSlide pptx in
  let pptx := Pptx.addText slide (SlideContent.title entry)
                heading_text_options pptx in
  forEach (fun pptx bullet index =>
             Pptx.addText slide bullet (bullet_text_options index) pptx)
          (SlideContent.content entry) pptx.

(** The statements of [CreatePowerpointFromArrayOfObjects] before its
    [try]: the deck that is about to be written. *)
Definition build_presentation (titleAndDescription : TitleDescription.t)
           (slides : list SlideContent.t) : Pptx.Presentation :=
  let pptx := Pptx.new_pptxgen in
  let (pptx, titleSlide) := Pptx.addSlide pptx in
  let pptx := Pptx.set_background titleSlide "#ffffff" pptx in
  let pptx := Pptx.addText titleSlide (TitleDescription.title titleAndDescription)
                title_text_options pptx in
  let pptx := Pptx.addText titleSlide
                (TitleDescription.description titleAndDescription)
                description_text_options pptx in
  forEach add_content_slide slides pptx.

(** What the renderer returns: [{ fileName, filePath }]. *)
Record GeneratedFile : Type := mkGeneratedFile {
  fileName : string;
  filePath : string
}.

(** [`presentation-${randomUUID()}-userId=${userId}.pptx`] *)
Definition presentation_fileName (uuid userId : string) : string :=
  ("presentation-" ++ uuid ++ "-userId=" ++ userId ++ ".pptx")%string.

(** [CreatePowerpointFromArrayOfObjects(titleAndDescription, slides, userId)] *)
Definition CreatePowerpointFromArrayOfObjects (rt : Runtime)
           (titleAndDescription : TitleDescription.t)
           (slides : list SlideContent.t) (userId : string) : M GeneratedFile :=
  let pptx := build_presentation titleAndDescription slides in
  try_catch
    (uuid <- perform randomUUID_call (Returns (randomUUID rt)) ;;
     let fileName := presentation_fileName uuid userId in
     let filePath := Path.join ["/tmp"; fileName] in
     _ <- perform (writeFile_call filePath pptx) (writeFile rt filePath pptx) ;;
     ret (mkGeneratedFile fileName filePath))
    (fun error =>
       log_error error ;;
       throw (new_Error "Failed to create Powerpoint presentation")).

(* ================================================================== *)
(** * Vocabulary for the statements *)
(* ================================================================== *)

(** The fragment made from one element: its text content, the empty
    string when there is none. *)
Definition fragment_of (element : Dom.Node) : SubtitleItem.t :=
  SubtitleItem.mk (Dom.string_of_option (Dom.textContent element)).

(** A subtitle entry whose [languageCode] is ['en']. *)
Definition is_english (entry : Value) : bool :=
  strict_eq_string (property entry languageCode) "en".

(** The structured payload of a model answer: [parsed] of the message of
    the first choice, when all three are there. *)
Definition payload {T : Type} (completion : ParsedChatCompletion T) : option T :=
  match choices completion with
  | [] => None
  | choice :: _ =>
      match message choice with
      | Some m => parsed m
      | None => None
      end
  end.

(** The deck, slide by slide: what the calls on the presentation object
    add up to. *)
Fixpoint bullets_from (index : nat) (content : list string)
  : list Pptx.TextObject :=
  match content with
  | [] => []
  | bullet :: rest =>
      Pptx.mkTextObject bullet (bullet_text_options index)
      :: bullets_from (S index) rest
  end.

Definition title_slide (titleAndDescription : TitleDescription.t) : Pptx.Slide :=
  Pptx.mkSlide (Some "#ffffff")
    [Pptx.mkTextObject (TitleDescription.title titleAndDescription)
       title_text_options;
     Pptx.mkTextObject (TitleDescription.description titleAndDescription)
       description_text_options].

Definition content_slide (entry : SlideContent.t) : Pptx.Slide :=
  Pptx.mkSlide None
    (Pptx.mkTextObject (SlideContent.title entry) heading_text_options
     :: bullets_from 0 (SlideContent.content entry)).

(** A string with a path separator in it. *)
Fixpoint has_slash (s : string) : bool :=
  match s with
  | EmptyString => false
  | String c rest => Ascii.eqb c "/" || has_slash rest
  end.

(** The generic message of each component. *)
Definition parse_failed : Error := new_Error "Failed to parse XML content".
Definition conversion_failed : Error :=
  new_Error "Failed to convert text to objects".



(** An action whose result is an array: neither [null] nor anything else
    but the throw of [generic]. *)
Definition array_or_throws {A : Type} (generic : Error)
           (r : Outcome (option (list A)) * Trace) : Prop :=
  match fst r with
  | Returns (Some _) => True
  | Returns None => False
  | Throws e => e = generic
  end.

(** Unfolds the monad so that an action becomes a function of the trace. *)
Ltac run_monad :=
  unfold try_catch, bind, perform, ret, throw, log_error; cbn beta iota.

(** The errors [console.error] printed in a trace, oldest first. *)
Fixpoint logged (tr : Trace) : list Error :=
  match tr with
  | [] => []
  | console_error error :: rest => error :: logged rest
  | _ :: rest => logged rest
  end.

(** The outside calls of a trace: every effect but the logging. *)
Fixpoint calls (tr : Trace) : Trace :=
  match tr with
  | [] => []
  | console_error _ :: rest => calls rest
  | call :: rest => call :: calls rest
  end.

(** A run that logs nothing when it returns and exactly one error when it
    throws; [tr] is the trace it started from. *)
Definition logs_failure_once {A : Type} (tr : Trace) (r : Outcome A * Trace)
  : Prop :=
  match fst r with
  | Returns _ => logged (snd r) = logged tr
  | Throws _ => exists cause, logged (snd r) = logged tr ++ [cause]
  end.

(** The statements of [GetVideoLengthAndSubtitles] after the request: the
    reading of the response data. *)
Definition read_metadata (body : Value) : M VideoMetaData.t :=
  len <- get_prop body lengthSeconds ;;
  outer <- get_prop body subtitles ;;
  inner <- get_prop outer subtitles ;;
  found <- find inner (fun subtitle =>
             code <- get_prop subtitle languageCode ;;
             ret (strict_eq_string code "en")) ;;
  link <- get_prop_optional found url ;;
  ret (VideoMetaData.mk len (Js.or link Null)).

(** A node and a document with the attributes of every element removed. *)
Fixpoint without_attributes (n : Dom.Node) : Dom.Node :=
  match n with
  | Dom.Element tagName _ kids => Dom.Element tagName [] (map without_attributes kids)
  | other => other
  end.

Definition document_without_attributes (doc : Dom.Document) : Dom.Document :=
  Dom.mkDocument (map without_attributes (Dom.documentChildNodes doc)).

(** Reading a deck back: the title and description off the first slide,
    an entry off a content slide. *)
Definition titleAndDescription_of_slide (slide : Pptx.Slide)
  : option TitleDescription.t :=
  match Pptx.objects slide with
  | [t; d] => Some (TitleDescription.mk (Pptx.text t) (Pptx.text d))
  | _ => None
  end.

Definition entry_of_slide (slide : Pptx.Slide) : option SlideContent.t :=
  match Pptx.objects slide with
  | heading :: bullets =>
      Some (SlideContent.mk (Pptx.text heading) (map Pptx.text bullets))
  | [] => None
  end.

(** The vertical extent of a text box given in inches: top and bottom. *)
Definition vertical_extent (obj : Pptx.TextObject) : option (Q * Q) :=
  match Pptx.y (Pptx.options obj), Pptx.h (Pptx.options obj) with
  | Pptx.Inches top, Pptx.Inches height => Some (top, (top + height)%Q)
  | _, _ => None
  end.

(* ================================================================== *)
(** * Sample data *)
(* ================================================================== *)

(** [<transcript><text start="0">Hello</text><text/>
     <p><text>a<!--c-->b</text></p></transcript>] *)
Definition sample_document : Dom.Document :=
  Dom.mkDocument
    [Dom.Element "transcript" []
       [Dom.Element "text" [("start", "0")] [Dom.Text "Hello"];
        Dom.Element "text" [] [];
        Dom.Element "p" []
          [Dom.Element "text" [] [Dom.Text "a"; Dom.Comment "c"; Dom.Text "b"]]]].

(** [<transcript><p>no captions</p></transcript>] *)
Definition empty_document : Dom.Document :=
  Dom.mkDocument
    [Dom.Element "transcript" [] [Dom.Element "p" [] [Dom.Text "no captions"]]].

Definition sample_video_info : Value :=
  Obj [("lengthSeconds", Num 212);
       ("subtitles",
        Obj [("subtitles",
              Arr [Obj [("languageCode", Str "fr"); ("url", Str "https://yt.example/fr")];
                   Obj [("languageCode", Str "en"); ("url", Str "https://yt.example/en")];
                   Obj [("languageCode", Str "en"); ("url", Str "https://yt.example/en2")]])])].

(** A subtitle entry and a response body with a subtitle list. *)
Definition subtitle_entry (code link : string) : Value :=
  Obj [("languageCode", Str code); ("url", Str link)].

Definition video_info_body (seconds : Value) (entries : list Value)
  : list (string * Value) :=
  [("lengthSeconds", seconds); ("subtitles", Obj [("subtitles", Arr entries)])].

Definition sample_titleAndDescription : TitleDescription.t :=
  TitleDescription.mk "Photosynthesis" "How plants turn light into sugar".

Definition sample_slides : list SlideContent.t :=
  [SlideContent.mk "Light" ["Chlorophyll absorbs light"; "Water is split"];
   SlideContent.mk "Dark" ["Carbon is fixed"; "Sugar is built"; "The cycle restarts"]].

(** A model answer for either schema. *)
Definition sample_completion (T : Type) (request : ChatRequest T)
  : ParsedChatCompletion T :=
  match format_schema (response_format request) in Schema U
        return ParsedChatCompletion U with
  | TitleAndDescriptionSchema =>
      mkParsedChatCompletion
        [mkParsedChoice (Some (mkParsedMessage (Some sample_titleAndDescription)))]
  | arrayOfObjectsSchema =>
      mkParsedChatCompletion
        [mkParsedChoice
           (Some (mkParsedMessage (Some (ArrayOfObjects.mk sample_slides))))]
  end.

Definition sample_uuid : string := "123e4567-e89b-42d3-a456-426614174000".

(** A world in which every service answers. *)
Definition sample_runtime (doc : Dom.Document) (info : Value) : Runtime :=
  mkRuntime
    (fun _ => Some "secret")
    (fun _ => Returns (mkAxiosResponse (Str "<transcript/>")))
    (fun _ => Returns (mkAxiosResponse info))
    (fun _ _ => Returns (Some doc))
    (fun T request => Returns (sample_completion T request))
    sample_uuid
    (fun fileName _ => Returns fileName).

(** A world in which the model refuses: the answer carries no payload. *)
Definition refusing_runtime : Runtime :=
  mkRuntime
    (fun _ => Some "secret")
    (fun _ => Returns (mkAxiosResponse (Str "<transcript/>")))
    (fun _ => Returns (mkAxiosResponse sample_video_info))
    (fun _ _ => Returns (Some sample_document))
    (fun T _ => Returns (mkParsedChatCompletion [mkParsedChoice
                                                   (Some (mkParsedMessage None))]))
    sample_uuid
    (fun fileName _ => Returns fileName).

(** A world in which the download is empty and the parser builds no
    document. *)
Definition documentless_runtime : Runtime :=
  mkRuntime
    (fun _ => Some "secret")
    (fun _ => Returns (mkAxiosResponse (Str "")))
    (fun _ => Returns (mkAxiosResponse sample_video_info))
    (fun _ _ => Returns None)
    (fun T request => Returns (sample_completion T request))
    sample_uuid
    (fun fileName _ => Returns fileName).



(* ================================================================== *)
(** * Facts about the document model *)
(* ================================================================== *)

(** Induction on a node with the hypothesis available for every child. *)
Lemma Node_nested_ind (P : Dom.Node -> Prop) :
  (forall tagName attributes kids,
      Forall P kids -> P (Dom.Element tagName attributes kids)) ->
  (forall d, P (Dom.Text d)) ->
  (forall d, P (Dom.CDATASection d)) ->
  (forall d, P (Dom.Comment d)) ->
  (forall t d, P (Dom.ProcessingInstruction t d)) ->
  (forall n, P (Dom.DocumentType n)) ->
  forall n, P n.
Proof.
  intros HE HT HC HM HP HD.
  fix IH 1.
  intros [tagName attributes kids | d | d | d | t d | n].
  - apply HE.
    induction kids as [| k rest IHrest]; constructor.
    + apply IH.
    + exact IHrest.
  - apply HT.
  - apply HC.
  - apply HM.
  - apply HP.
  - apply HD.
Qed.

Lemma filter_flat_map {A B : Type} (f : B -> bool) (g : A -> list B) (l : list A) :
  filter f (flat_map g l) = flat_map (fun a => filter f (g a)) l.
Proof.
  induction l as [| a rest IH]; simpl.
  - reflexivity.
  - rewrite filter_app, IH. reflexivity.
Qed.

Lemma flat_map_Forall_ext {A B : Type} (f g : A -> list B) (l : list A) :
  Forall (fun a => f a = g a) l -> flat_map f l = flat_map g l.
Proof.
  induction 1 as [| a rest Ha _ IH]; simpl.
  - reflexivity.
  - rewrite Ha, IH. reflexivity.
Qed.

(** The elements [visit] collects are the matching nodes of the subtree,
    in document order. *)
Lemma visit_filter_subtree (tag : string) (n : Dom.Node) :
  Dom.visit tag n = filter (Dom.tag_matches tag) (Dom.subtree n).
Proof.
  induction n as [tagName attributes kids IH | d | d | d | t d | nm]
    using Node_nested_ind; try reflexivity.
  cbn [Dom.visit Dom.subtree filter].
  rewrite filter_flat_map.
  rewrite (flat_map_Forall_ext _ _ _ IH).
  destruct (Dom.tag_matches tag (Dom.Element tagName attributes kids)); reflexivity.
Qed.

Lemma getElementsByTagName_document_order (doc : Dom.Document) (tag : string) :
  Dom.getElementsByTagName doc tag
  = filter (Dom.tag_matches tag) (Dom.descendants doc).
Proof.
  unfold Dom.getElementsByTagName, Dom.descendants.
  rewrite filter_flat_map.
  apply flat_map_Forall_ext.
  apply Forall_forall. intros n _. apply visit_filter_subtree.
Qed.

Lemma length_flat_map_sum {A B : Type} (f : A -> list B) (l : list A) :
  List.length (flat_map f l) = list_sum (map (fun a => List.length (f a)) l).
Proof.
  induction l as [| a rest IH]; simpl.
  - reflexivity.
  - rewrite length_app, IH. reflexivity.
Qed.

Lemma map_Forall_ext {A B : Type} (f g : A -> B) (l : list A) :
  Forall (fun a => f a = g a) l -> map f l = map g l.
Proof.
  induction 1 as [| a rest Ha _ IH]; simpl; congruence.
Qed.

Lemma length_visit (tag : string) (n : Dom.Node) :
  List.length (Dom.visit tag n) = Dom.count_in_node tag n.
Proof.
  induction n as [tagName attributes kids IH | d | d | d | t d | nm]
    using Node_nested_ind; try reflexivity.
  cbn [Dom.visit Dom.count_in_node].
  rewrite length_app, length_flat_map_sum, (map_Forall_ext _ _ _ IH).
  destruct (Dom.tag_matches tag (Dom.Element tagName attributes kids)); reflexivity.
Qed.

(** [getElementsByTagName] finds as many elements as the document has. *)
Lemma length_getElementsByTagName (doc : Dom.Document) (tag : string) :
  List.length (Dom.getElementsByTagName doc tag) = Dom.count_elements tag doc.
Proof.
  unfold Dom.getElementsByTagName, Dom.count_elements.
  rewrite length_flat_map_sum. f_equal.
  apply map_Forall_ext, Forall_forall. intros n _. apply length_visit.
Qed.

(** [s || ""] is [s], and [""] when [s] is [null]. *)
Lemma string_or_empty (s : option string) :
  string_or s "" = Dom.string_of_option s.
Proof.
  destruct s as [t |]; simpl; [| reflexivity].
  destruct (String.eqb_spec t ""); congruence.
Qed.

(* ================================================================== *)
(** * The subtitle parser *)
(* ================================================================== *)

(** When the download and the parser succeed, the action returns one
    fragment per element found and performs nothing else. *)
Lemma parseXMLContent_parsed rt url tr res doc :
  axios_get rt url = Returns res ->
  parseFromString rt (data res) "application/xml" = Returns (Some doc) ->
  parseXMLContent rt url tr
  = (Returns (Some (map fragment_of (Dom.getElementsByTagName doc "text"))),
     tr ++ [axios_get_call url;
            parseFromString_call (data res) "application/xml"]).
Proof.
  intros Hget Hparse.
  unfold parseXMLContent, getElementsByTagName_of. run_monad.
  rewrite Hget, Hparse. cbn beta iota.
  rewrite <- app_assoc. cbn [app].
  do 3 f_equal.
  apply map_ext. intros element. unfold fragment_of.
  now rewrite string_or_empty.
Qed.

(** C2.  A subtitle document with N elements named [text] yields exactly N
    fragments, in document order; the text of each is the text content of
    its element, the empty string standing in for an absent one. *)
Theorem parseXMLContent_one_fragment_per_text_element rt url tr res doc :
  axios_get rt url = Returns res ->
  parseFromString rt (data res) "application/xml" = Returns (Some doc) ->
  exists items,
    fst (parseXMLContent rt url tr) = Returns (Some items) /\
    List.length items = Dom.count_elements "text" doc /\
    items = map fragment_of
                (filter (Dom.tag_matches "text") (Dom.descendants doc)) /\
    (forall i element,
        nth_error (Dom.getElementsByTagName doc "text") i = Some element ->
        exists item,
          nth_error items i = Some item /\
          SubtitleItem.text item
          = match Dom.textContent element with
            | Some s => s
            | None => ""
            end).
Proof.
  intros Hget Hparse.
  exists (map fragment_of (Dom.getElementsByTagName doc "text")).
  rewrite (parseXMLContent_parsed rt url tr res doc Hget Hparse).
  repeat split.
  - rewrite length_map. apply length_getElementsByTagName.
  - now rewrite getElementsByTagName_document_order.
  - intros i element Hi.
    exists (fragment_of element). split.
    + now apply map_nth_error.
    + reflexivity.
Qed.

Lemma parseXMLContent_one_fragment_per_text_element_witness :
  exists items,
    fst (parseXMLContent (sample_runtime sample_document sample_video_info)
           "https://yt.example/en" [])
    = Returns (Some items) /\
    List.length items = 3 /\
    items = [SubtitleItem.mk "Hello"; SubtitleItem.mk ""; SubtitleItem.mk "ab"].
Proof.
  destruct (parseXMLContent_one_fragment_per_text_element
              (sample_runtime sample_document sample_video_info)
              "https://yt.example/en" [] (mkAxiosResponse (Str "<transcript/>"))
              sample_document eq_refl eq_refl)
    as [items [Hrun [Hlen [Hitems _]]]].
  exists items. repeat split; assumption.
Defined.

(** C3.  A document that parses and has no element named [text] makes the
    parser return the empty sequence: not [null], nothing thrown, nothing
    logged. *)
Theorem parseXMLContent_zero_text_elements rt url tr res doc :
  axios_get rt url = Returns res ->
  parseFromString rt (data res) "application/xml" = Returns (Some doc) ->
  Dom.count_elements "text" doc = 0 ->
  parseXMLContent rt url tr
  = (Returns (Some []),
     tr ++ [axios_get_call url;
            parseFromString_call (data res) "application/xml"]).
Proof.
  intros Hget Hparse Hzero.
  rewrite (parseXMLContent_parsed rt url tr res doc Hget Hparse).
  rewrite <- length_getElementsByTagName in Hzero.
  apply length_zero_iff_nil in Hzero.
  now rewrite Hzero.
Qed.

Lemma parseXMLContent_zero_text_elements_witness :
  parseXMLContent (sample_runtime empty_document sample_video_info)
    "https://yt.example/en" []
  = (Returns (Some []),
     [axios_get_call "https://yt.example/en";
      parseFromString_call (Str "<transcript/>") "application/xml"]).
Proof.
  exact (parseXMLContent_zero_text_elements
           (sample_runtime empty_document sample_video_info)
           "https://yt.example/en" [] (mkAxiosResponse (Str "<transcript/>"))
           empty_document eq_refl eq_refl eq_refl).
Defined.

(* ================================================================== *)
(** * The video metadata fetcher *)
(* ================================================================== *)

(** On entries that are neither [undefined] nor [null] the callback of
    [find] never throws, and the loop is the search for the first English
    entry. *)
Lemma find_loop_first_english (entries : list Value) (tr : Trace) :
  Forall (fun entry => nullish entry = false) entries ->
  find_loop (fun subtitle =>
               code <- get_prop subtitle languageCode ;;
               ret (strict_eq_string code "en")) entries tr
  = (Returns (match List.find is_english entries with
              | Some entry => entry
              | None => Undefined
              end), tr).
Proof.
  induction 1 as [| entry rest Hentry _ IH]; cbn [find_loop List.find].
  - reflexivity.
  - unfold bind at 1. unfold get_prop at 1. rewrite Hentry.
    unfold bind, ret. fold (is_english entry).
    destruct (is_english entry); [reflexivity | exact IH].
Qed.

Lemma find_english_not_nullish (entries : list Value) (entry : Value) :
  Forall (fun e => nullish e = false) entries ->
  List.find is_english entries = Some entry ->
  nullish entry = false.
Proof.
  intros Hall Hfind.
  apply find_some in Hfind. destruct Hfind as [Hin _].
  rewrite Forall_forall in Hall. now apply Hall.
Qed.

(** With a subtitle list in the body the action returns: [length] is what
    reading [lengthSeconds] gives, and [subtitlesURL] comes from the first
    English entry. *)
Lemma GetVideoLengthAndSubtitles_run rt videoId tr res body track entries :
  axios_request rt (video_info_options rt videoId) = Returns res ->
  data res = Obj body ->
  lookup "subtitles" body = Some (Obj track) ->
  lookup "subtitles" track = Some (Arr entries) ->
  Forall (fun entry => nullish entry = false) entries ->
  GetVideoLengthAndSubtitles rt videoId tr
  = (Returns
       (VideoMetaData.mk
          (property (Obj body) lengthSeconds)
          (match List.find is_english entries with
           | Some entry => Js.or (property entry url) Null
           | None => Null
           end)),
     tr ++ [axios_request_call (video_info_options rt videoId)]).
Proof.
  intros Hrequest Hbody Houter Hinner Hentries.
  unfold GetVideoLengthAndSubtitles. run_monad.
  rewrite Hrequest. cbn beta iota. rewrite Hbody.
  unfold get_prop at 1 2. cbn [nullish]. run_monad.
  assert (Hread : property (Obj body) subtitles = Obj track).
  { cbn [property prop_string]. now rewrite Houter. }
  rewrite Hread. unfold get_prop at 1. cbn [nullish]. run_monad.
  cbn [property prop_string]. rewrite Hinner. cbn [find].
  rewrite (find_loop_first_english entries _ Hentries).
  unfold get_prop_optional.
  destruct (List.find is_english entries) as [entry |] eqn:Hfind.
  - rewrite (find_english_not_nullish entries entry Hentries Hfind).
    unfold get_prop.
    rewrite (find_english_not_nullish entries entry Hentries Hfind).
    reflexivity.
  - reflexivity.
Qed.

(** C1, as the code has it.  For a response body that holds
    [lengthSeconds] and holds [subtitles.subtitles] as an array of entries
    none of which is [null], the action returns [length] as the
    [lengthSeconds] of the body and [subtitlesURL] as the [url] of the
    first entry whose [languageCode] is ['en'] when that [url] is truthy,
    [null] otherwise: when there is no such entry, or when its [url] is
    missing or empty.  [length] is the same in all these cases. *)
Theorem GetVideoLengthAndSubtitles_metadata
        rt videoId tr res body seconds track entries :
  axios_request rt (video_info_options rt videoId) = Returns res ->
  data res = Obj body ->
  lookup "lengthSeconds" body = Some seconds ->
  lookup "subtitles" body = Some (Obj track) ->
  lookup "subtitles" track = Some (Arr entries) ->
  Forall (fun entry => nullish entry = false) entries ->
  GetVideoLengthAndSubtitles rt videoId tr
  = (Returns
       (VideoMetaData.mk
          seconds
          (match List.find is_english entries with
           | Some entry =>
               if truthy (property entry url) then property entry url else Null
           | None => Null
           end)),
     tr ++ [axios_request_call (video_info_options rt videoId)]).
Proof.
  intros Hrequest Hbody Hseconds Houter Hinner Hentries.
  rewrite (GetVideoLengthAndSubtitles_run rt videoId tr res body track entries
             Hrequest Hbody Houter Hinner Hentries).
  cbn [property prop_string]. rewrite Hseconds. reflexivity.
Qed.

Lemma GetVideoLengthAndSubtitles_metadata_witness :
  GetVideoLengthAndSubtitles (sample_runtime sample_document sample_video_info)
    "dQw4w9WgXcQ" []
  = (Returns (VideoMetaData.mk (Num 212) (Str "https://yt.example/en")),
     [axios_request_call
        (video_info_options (sample_runtime sample_document sample_video_info)
           "dQw4w9WgXcQ")]).
Proof.
  refine (GetVideoLengthAndSubtitles_metadata
            (sample_runtime sample_document sample_video_info) "dQw4w9WgXcQ" []
            (mkAxiosResponse sample_video_info) _ _ _ _ eq_refl eq_refl eq_refl
            eq_refl eq_refl _).
  repeat constructor.
Defined.

(** C1 fails as stated, on three bodies.  Without a subtitle list the
    action throws instead of returning a [null] URL next to the length; an
    English entry whose [url] is the empty string is reported as [null],
    not as that [url]; and without [lengthSeconds] the [length] is
    [undefined], not [null]. *)
Lemma GetVideoLengthAndSubtitles_not_as_claimed :
  fst (GetVideoLengthAndSubtitles
         (sample_runtime sample_document (Obj [("lengthSeconds", Num 212)]))
         "dQw4w9WgXcQ" [])
  = Throws (new_Error "Failed to get video length and subtitles") /\
  fst (GetVideoLengthAndSubtitles
         (sample_runtime sample_document
            (Obj [("lengthSeconds", Num 212);
                  ("subtitles",
                   Obj [("subtitles",
                         Arr [Obj [("languageCode", Str "en"); ("url", Str "")]])])]))
         "dQw4w9WgXcQ" [])
  = Returns (VideoMetaData.mk (Num 212) Null) /\
  fst (GetVideoLengthAndSubtitles
         (sample_runtime sample_document
            (Obj [("subtitles", Obj [("subtitles", Arr [])])]))
         "dQw4w9WgXcQ" [])
  = Returns (VideoMetaData.mk Undefined Null) /\
  Undefined <> Null /\ Str "" <> Null.
Proof.
  repeat split; discriminate.
Qed.

(* ================================================================== *)
(** * The two generators *)
(* ================================================================== *)

Lemma first_parsed_payload {T : Type} (completion : ParsedChatCompletion T)
      (tr : Trace) (r : T) :
  payload completion = Some r ->
  first_parsed completion tr = (Returns (Some r), tr).
Proof.
  unfold payload, first_parsed.
  destruct (choices completion) as [| choice rest]; [discriminate |].
  intros H. unfold ret. now rewrite H.
Qed.

(** C5.  Whatever the transcript, when the model answers, the generator
    returns the parsed payload of the answer as it is, and throws the
    generic generation error when the answer has no payload. *)
Theorem CreateTitleAndDescription_payload rt transcript tr completion :
  openai_parse rt _ (title_request transcript) = Returns completion ->
  fst (CreateTitleAndDescription rt transcript tr)
  = match payload completion with
    | Some titleAndDescription => Returns titleAndDescription
    | None => Throws (new_Error "Failed to generate title and description")
    end.
Proof.
  intros Hparse.
  unfold CreateTitleAndDescription. run_monad. rewrite Hparse. cbn beta iota.
  unfold payload, first_parsed. run_monad.
  destruct (choices completion) as [| choice rest]; [reflexivity |].
  destruct (message choice) as [m |]; [| reflexivity].
  destruct (parsed m); reflexivity.
Qed.

Lemma CreateTitleAndDescription_payload_witness :
  fst (CreateTitleAndDescription
         (sample_runtime sample_document sample_video_info) "a transcript" [])
  = Returns sample_titleAndDescription /\
  fst (CreateTitleAndDescription refusing_runtime "a transcript" [])
  = Throws (new_Error "Failed to generate title and description").
Proof.
  split.
  - exact (CreateTitleAndDescription_payload
             (sample_runtime sample_document sample_video_info) "a transcript" []
             _ eq_refl).
  - exact (CreateTitleAndDescription_payload refusing_runtime "a transcript" []
             _ eq_refl).
Defined.

Lemma string_append_assoc (a b c : string) :
  ((a ++ b) ++ c = a ++ (b ++ c))%string.
Proof.
  induction a as [| ch a IH]; simpl; [reflexivity | now rewrite IH].
Qed.

(** The prompt is the template with [String(slideCount)] and the text
    spliced in between three fixed pieces. *)
Lemma slides_promptTemplate_splice :
  exists before between after : string,
  forall (text : string) (slideCount : Z),
    slides_promptTemplate text slideCount
    = (before ++ Number_toString slideCount ++ between ++ text ++ after)%string.
Proof.
  exists (String.concat LF
            ["";
             "        Condense and tidy up the following text to make it suitable for a Powerpoint presentation. Transform it ";
             "        into an array of objects. I have provided the schema for the output. Make sure that the content array has between 3 and 4 items, ";
             "        and each content string should be between 160 and 170 characters. You can add to the content based on the transcript.. ";
             "        The length of the array should be "]).
  exists ("." ++ LF ++ "        The text to process is as follows: ")%string.
  exists (LF ++ "    ")%string.
  intros text slideCount.
  unfold slides_promptTemplate. cbn [String.concat].
  rewrite (string_append_assoc _ (Number_toString slideCount ++ ".")%string).
  rewrite (string_append_assoc (Number_toString slideCount) ".").
  rewrite (string_append_assoc _ text).
  unfold LF. cbn [String.append].
  reflexivity.
Qed.

(** C4.  The slide generator sends the model a prompt in which the
    requested count K is printed as it is, 10 standing in for an omitted
    count, and returns the [arrayOfObjects] of the answer entry for entry,
    whatever its length, so in particular when it has K entries. *)
Theorem ConvertToObjects_count_and_entries :
  exists before between after : string,
  forall rt text (K : Z) tr completion entries,
    openai_parse rt _ (slides_request text K) = Returns completion ->
    payload completion = Some (ArrayOfObjects.mk entries) ->
    nth_error (messages (slides_request text K)) 1
    = Some (mkChatMessage "user"
              (before ++ Number_toString K ++ between ++ text ++ after)%string) /\
    ConvertToObjects rt text (Some K) tr
    = (Returns (Some entries), tr ++ [openai_parse_call (slides_request text K)]) /\
    ConvertToObjects rt text None = ConvertToObjects rt text (Some 10%Z) /\
    (Z.of_nat (List.length entries) = K ->
     exists items,
       fst (ConvertToObjects rt text (Some K) tr) = Returns (Some items) /\
       Z.of_nat (List.length items) = K /\
       forall i, nth_error items i = nth_error entries i).
Proof.
  destruct slides_promptTemplate_splice as [before [between [after Hsplice]]].
  exists before, between, after.
  intros rt text K tr completion entries Hparse Hpayload.
  assert (Hrun : ConvertToObjects rt text (Some K) tr
                 = (Returns (Some entries),
                    tr ++ [openai_parse_call (slides_request text K)])).
  { unfold ConvertToObjects. cbn [default_to]. run_monad.
    rewrite Hparse. cbn beta iota.
    rewrite (first_parsed_payload completion _ _ Hpayload).
    reflexivity. }
  split; [| split; [| split]].
  - cbn [slides_request messages nth_error]. now rewrite Hsplice.
  - exact Hrun.
  - reflexivity.
  - intros Hlength. exists entries. rewrite Hrun. repeat split. exact Hlength.
Qed.

Lemma ConvertToObjects_count_and_entries_witness :
  ConvertToObjects (sample_runtime sample_document sample_video_info)
    "a transcript" (Some 2%Z) []
  = (Returns (Some sample_slides),
     [openai_parse_call (slides_request "a transcript" 2)]).
Proof.
  destruct ConvertToObjects_count_and_entries as [before [between [after H]]].
  exact (proj1 (proj2 (H (sample_runtime sample_document sample_video_info)
                         "a transcript" 2%Z [] _ sample_slides
                         eq_refl eq_refl))).
Defined.

(* ================================================================== *)
(** * Stub, results and failures *)
(* ================================================================== *)

(** C10.  [CreatePowerpoint] is a stub: whatever the video identifier and
    the world, it returns [undefined] and performs no effect at all. *)
Theorem CreatePowerpoint_stub rt videoId tr :
  CreatePowerpoint rt videoId tr = (Returns Undefined, tr).
Proof. reflexivity. Qed.

(** C9.  [parseXMLContent] and [ConvertToObjects] never return [null]:
    each run returns an array or throws the generic error of its
    component. *)
Theorem parse_and_convert_never_null rt tr :
  (forall url, array_or_throws parse_failed (parseXMLContent rt url tr)) /\
  (forall text slideCount,
      array_or_throws conversion_failed (ConvertToObjects rt text slideCount tr)).
Proof.
  split.
  - intros url. unfold array_or_throws, parseXMLContent. run_monad.
    destruct (axios_get rt url) as [res | e]; [| reflexivity].
    cbn beta iota.
    destruct (parseFromString rt (data res) "application/xml")
      as [[doc |] | e]; cbn; first [exact I | reflexivity].
  - intros text slideCount. unfold array_or_throws, ConvertToObjects. run_monad.
    destruct (openai_parse rt _ _) as [completion | e]; [| reflexivity].
    cbn beta iota. unfold first_parsed. run_monad.
    destruct (choices completion) as [| choice rest]; [reflexivity |].
    destruct (message choice) as [m |]; [| reflexivity].
    destruct (parsed m); [exact I | reflexivity].
Qed.



(* ================================================================== *)
(** * The deck renderer *)
(* ================================================================== *)

Lemma update_last {A : Type} (f : A -> A) (l : list A) (a : A) :
  Pptx.update (List.length l) f (l ++ [a]) = l ++ [f a].
Proof.
  induction l as [| b rest IH]; simpl; [reflexivity | now rewrite IH].
Qed.

(** Adding a text to the slide that was added last. *)
Lemma addText_last (before : list Pptx.Slide) (s : Pptx.Slide) (t : string)
      (o : Pptx.TextProps) :
  Pptx.addText (List.length before) t o (Pptx.mkPresentation (before ++ [s]))
  = Pptx.mkPresentation
      (before ++ [Pptx.mkSlide (Pptx.background s)
                    (Pptx.objects s ++ [Pptx.mkTextObject t o])]).
Proof.
  unfold Pptx.addText. cbn [Pptx.slides]. now rewrite update_last.
Qed.

(** The inner loop appends one bullet per content string to that slide. *)
Lemma forEach_bullets (content : list string) :
  forall (index : nat) (before : list Pptx.Slide) (s : Pptx.Slide),
    forEach_from
      (fun pptx bullet index =>
         Pptx.addText (List.length before) bullet (bullet_text_options index) pptx)
      content index (Pptx.mkPresentation (before ++ [s]))
    = Pptx.mkPresentation
        (before ++ [Pptx.mkSlide (Pptx.background s)
                      (Pptx.objects s ++ bullets_from index content)]).
Proof.
  induction content as [| bullet rest IH]; intros index before s;
    cbn [forEach_from bullets_from].
  - rewrite app_nil_r. now destruct s.
  - rewrite addText_last, IH. cbn [Pptx.background Pptx.objects].
    now rewrite <- app_assoc.
Qed.

(** One turn of the outer loop appends the slide of its entry. *)
Lemma add_content_slide_appends (pptx : Pptx.Presentation)
      (entry : SlideContent.t) (index : nat) :
  add_content_slide pptx entry index
  = Pptx.mkPresentation (Pptx.slides pptx ++ [content_slide entry]).
Proof.
  unfold add_content_slide, Pptx.addSlide, forEach.
  rewrite addText_last. cbn [Pptx.background Pptx.objects app].
  rewrite forEach_bullets. reflexivity.
Qed.

Lemma forEach_add_content_slide (slides : list SlideContent.t) :
  forall (index : nat) (pptx : Pptx.Presentation),
    forEach_from add_content_slide slides index pptx
    = Pptx.mkPresentation (Pptx.slides pptx ++ map content_slide slides).
Proof.
  induction slides as [| entry rest IH]; intros index pptx;
    cbn [forEach_from map].
  - rewrite app_nil_r. now destruct pptx.
  - rewrite IH, add_content_slide_appends. cbn [Pptx.slides].
    now rewrite <- app_assoc.
Qed.

(** The deck that is written: the title slide, then one slide per entry,
    in the order of the entries. *)
Lemma build_presentation_slides (titleAndDescription : TitleDescription.t)
      (slides : list SlideContent.t) :
  Pptx.slides (build_presentation titleAndDescription slides)
  = title_slide titleAndDescription :: map content_slide slides.
Proof.
  unfold build_presentation, forEach. cbn [Pptx.addSlide Pptx.new_pptxgen].
  rewrite forEach_add_content_slide. reflexivity.
Qed.

Lemma nth_error_bullets_from (content : list string) :
  forall (index i : nat),
    nth_error (bullets_from index content) i
    = option_map (fun bullet =>
                    Pptx.mkTextObject bullet (bullet_text_options (index + i)))
                 (nth_error content i).
Proof.
  induction content as [| bullet rest IH]; intros index [| i];
    cbn [bullets_from nth_error option_map]; try reflexivity.
  - now rewrite Nat.add_0_r.
  - rewrite IH. now rewrite Nat.add_succ_r.
Qed.





Lemma has_slash_app (a b : string) :
  has_slash (a ++ b)%string = has_slash a || has_slash b.
Proof.
  induction a as [| c a IH]; simpl; [reflexivity |].
  now rewrite IH, orb_assoc.
Qed.

Lemma split_without_slash (s : string) :
  has_slash s = false -> Path.split s = [s].
Proof.
  induction s as [| c s IH]; simpl; intros H; [reflexivity |].
  apply orb_false_elim in H. destruct H as [Hc Hs].
  rewrite Hc, (IH Hs). reflexivity.
Qed.

Lemma ends_with_slash_without_slash (s : string) :
  has_slash s = false -> Path.ends_with_slash s = false.
Proof.
  induction s as [| c s IH]; simpl; intros H; [reflexivity |].
  apply orb_false_elim in H. destruct H as [Hc Hs].
  destruct s; [exact Hc | exact (IH Hs)].
Qed.

Lemma join_tmp (rest : string) :
  has_slash rest = false ->
  Path.join ["/tmp"; String "p" rest] = ("/tmp/" ++ String "p" rest)%string.
Proof.
  intros H.
  assert (Hends : Path.ends_with_slash ("/tmp/" ++ String "p" rest)%string = false).
  { change (Path.ends_with_slash (String "p" rest) = false).
    apply ends_with_slash_without_slash. exact H. }
  assert (Hnorm : Path.normalizeString ("/tmp/" ++ String "p" rest)%string false
                  = ("tmp/" ++ String "p" rest)%string).
  { unfold Path.normalizeString.
    assert (Hsplit : Path.split ("/tmp/" ++ String "p" rest)%string
                     = [""; "tmp"; String "p" rest]).
    { cbn. now rewrite (split_without_slash rest H). }
    rewrite Hsplit. reflexivity. }
  unfold Path.join. cbn [filter String.eqb negb Ascii.eqb Bool.eqb].
  change (String.concat "/" ["/tmp"; String "p" rest])
    with ("/tmp/" ++ String "p" rest)%string.
  unfold Path.normalize. cbv zeta.
  change (Path.starts_with_slash ("/tmp/" ++ String "p" rest)%string) with true.
  cbn [negb]. rewrite Hends, Hnorm. reflexivity.
Qed.

Lemma prefix_append (u post : string) : String.prefix u (u ++ post) = true.
Proof.
  induction u as [| c u IH]; simpl; [now destruct post |].
  destruct (ascii_dec c c) as [_ | Hne]; [exact IH | now elim Hne].
Qed.

Lemma includes_append (before u after : string) :
  includes (before ++ u ++ after) u = true.
Proof.
  induction before as [| c before IH]; simpl.
  - destruct u; simpl.
    + destruct after; reflexivity.
    + destruct (ascii_dec a a) as [_ | Hne]; [| now elim Hne].
      rewrite prefix_append. reflexivity.
  - rewrite IH. apply orb_true_r.
Qed.

(** C6, as the code has it.  The deck has one title slide followed by one
    slide per entry, in the order of the entries, hence M+1 slides.  When
    neither the user identifier nor the random identifier contains a [/]
    and the write succeeds, the action returns the file name
    [presentation-<random-id>-userId=<user-id>.pptx] and the path of that
    file directly under [/tmp]; name and path contain the identifier. *)
Theorem CreatePowerpointFromArrayOfObjects_deck_and_file
        rt titleAndDescription slides userId tr written :
  has_slash userId = false ->
  has_slash (randomUUID rt) = false ->
  writeFile rt ("/tmp/" ++ presentation_fileName (randomUUID rt) userId)%string
    (build_presentation titleAndDescription slides)
  = Returns written ->
  Pptx.slides (build_presentation titleAndDescription slides)
  = title_slide titleAndDescription :: map content_slide slides /\
  List.length (Pptx.slides (build_presentation titleAndDescription slides))
  = S (List.length slides) /\
  CreatePowerpointFromArrayOfObjects rt titleAndDescription slides userId tr
  = (Returns
       (mkGeneratedFile
          (presentation_fileName (randomUUID rt) userId)
          ("/tmp/" ++ presentation_fileName (randomUUID rt) userId)%string),
     tr ++ [randomUUID_call;
            writeFile_call
              ("/tmp/" ++ presentation_fileName (randomUUID rt) userId)%string
              (build_presentation titleAndDescription slides)]) /\
  presentation_fileName (randomUUID rt) userId
  = ("presentation-" ++ randomUUID rt ++ "-userId=" ++ userId ++ ".pptx")%string /\
  has_slash (presentation_fileName (randomUUID rt) userId) = false /\
  includes (presentation_fileName (randomUUID rt) userId) userId = true /\
  includes ("/tmp/" ++ presentation_fileName (randomUUID rt) userId)%string userId
  = true.
Proof.
  intros Huser Huuid Hwrite.
  assert (Hname : has_slash (presentation_fileName (randomUUID rt) userId) = false).
  { unfold presentation_fileName.
    rewrite !has_slash_app, Huser, Huuid. reflexivity. }
  assert (Hjoin : Path.join ["/tmp"; presentation_fileName (randomUUID rt) userId]
                  = ("/tmp/" ++ presentation_fileName (randomUUID rt) userId)%string).
  { apply (join_tmp ("resentation-" ++ randomUUID rt ++ "-userId=" ++ userId
                       ++ ".pptx")%string).
    exact Hname. }
  refine (conj _ (conj _ (conj _ (conj _ (conj _ (conj _ _)))))).
  - apply build_presentation_slides.
  - rewrite build_presentation_slides. cbn [List.length].
    now rewrite length_map.
  - unfold CreatePowerpointFromArrayOfObjects. run_monad.
    rewrite Hjoin, Hwrite. cbn beta iota.
    rewrite <- app_assoc. reflexivity.
  - reflexivity.
  - exact Hname.
  - unfold presentation_fileName.
    rewrite <- !string_append_assoc.
    rewrite (string_append_assoc _ userId ".pptx").
    apply includes_append.
  - unfold presentation_fileName.
    rewrite <- !string_append_assoc.
    rewrite (string_append_assoc _ userId ".pptx").
    apply includes_append.
Qed.

Lemma CreatePowerpointFromArrayOfObjects_deck_and_file_witness :
  List.length
    (Pptx.slides (build_presentation sample_titleAndDescription sample_slides))
  = 3 /\
  CreatePowerpointFromArrayOfObjects
    (sample_runtime sample_document sample_video_info)
    sample_titleAndDescription sample_slides "kp_42" []
  = (Returns
       (mkGeneratedFile
          "presentation-123e4567-e89b-42d3-a456-426614174000-userId=kp_42.pptx"
          "/tmp/presentation-123e4567-e89b-42d3-a456-426614174000-userId=kp_42.pptx"),
     [randomUUID_call;
      writeFile_call
        "/tmp/presentation-123e4567-e89b-42d3-a456-426614174000-userId=kp_42.pptx"
        (build_presentation sample_titleAndDescription sample_slides)]).
Proof.
  destruct (CreatePowerpointFromArrayOfObjects_deck_and_file
              (sample_runtime sample_document sample_video_info)
              sample_titleAndDescription sample_slides "kp_42" [] _
              eq_refl eq_refl eq_refl)
    as [_ [Hcount [Hrun _]]].
  split; [exact Hcount | exact Hrun].
Defined.

(** C6 fails as stated: a user identifier with [/../] in it takes the file
    out of [/tmp], and the path no longer contains the identifier. *)
Lemma CreatePowerpointFromArrayOfObjects_path_escapes_tmp :
  exists file,
    fst (CreatePowerpointFromArrayOfObjects
           (sample_runtime sample_document sample_video_info)
           sample_titleAndDescription sample_slides "u/../../srv/deck" [])
    = Returns file /\
    filePath file = "/srv/deck.pptx" /\
    String.prefix "/tmp/" (filePath file) = false /\
    includes (filePath file) "u/../../srv/deck" = false.
Proof.
  eexists. split; [reflexivity |]. repeat split.
Qed.

(* ================================================================== *)
(** * Effects: what is called and what is logged *)
(* ================================================================== *)

Lemma logged_app (a b : Trace) : logged (a ++ b) = logged a ++ logged b.
Proof.
  induction a as [| ev a IH]; [reflexivity |].
  destruct ev; cbn [app logged]; now rewrite IH.
Qed.

Lemma calls_app (a b : Trace) : calls (a ++ b) = calls a ++ calls b.
Proof.
  induction a as [| ev a IH]; [reflexivity |].
  destruct ev; cbn [app calls]; now rewrite IH.
Qed.

(** A [try] whose body only calls, and whose [catch] logs and rethrows:
    the calls are those of the body, and the log grows by the error caught,
    if any. *)
Lemma try_catch_effects {A : Type} (body : M A) (msg : string) (tr cl : Trace) :
  snd (body tr) = tr ++ cl ->
  logged cl = [] ->
  calls cl = cl ->
  logs_failure_once tr
    (try_catch body (fun error => log_error error ;; throw (new_Error msg)) tr) /\
  calls (snd (try_catch body
                (fun error => log_error error ;; throw (new_Error msg)) tr))
  = calls tr ++ cl.
Proof.
  intros Hbody Hlogged Hcalls.
  unfold logs_failure_once. run_monad. unfold perform.
  destruct (body tr) as [[a | e] tr']; cbn [fst snd] in *; subst tr'.
  - rewrite logged_app, calls_app, Hlogged, Hcalls, app_nil_r. now split.
  - rewrite !logged_app, !calls_app, Hlogged, Hcalls. cbn [logged calls].
    rewrite !app_nil_r. split; [now exists e | reflexivity].
Qed.

(** Reading a property never touches the trace. *)
Lemma get_prop_pure (v : Value) (p : PropName) :
  exists o, forall tr, get_prop v p tr = (o, tr).
Proof.
  unfold get_prop. destruct (nullish v); eexists; intros tr; reflexivity.
Qed.

Lemma get_prop_optional_pure (v : Value) (p : PropName) :
  exists o, forall tr, get_prop_optional v p tr = (o, tr).
Proof.
  unfold get_prop_optional, get_prop.
  destruct (nullish v); eexists; intros tr; reflexivity.
Qed.

Lemma find_loop_pure (pred : Value -> M bool) :
  (forall v, exists o, forall tr, pred v tr = (o, tr)) ->
  forall items, exists o, forall tr, find_loop pred items tr = (o, tr).
Proof.
  intros Hpred items.
  induction items as [| item rest [o IH]].
  - eexists. intros tr. reflexivity.
  - destruct (Hpred item) as [[[|] | e] Hitem].
    + exists (Returns item). intros tr.
      cbn [find_loop]. unfold bind. now rewrite Hitem.
    + exists o. intros tr.
      cbn [find_loop]. unfold bind. rewrite Hitem. apply IH.
    + exists (Throws e). intros tr.
      cbn [find_loop]. unfold bind. now rewrite Hitem.
Qed.

Lemma find_english_pure (v : Value) :
  exists o, forall tr,
    find v (fun subtitle =>
              code <- get_prop subtitle languageCode ;;
              ret (strict_eq_string code "en")) tr
    = (o, tr).
Proof.
  destruct v as [| | b | q | s | items | props];
    try (eexists; intros tr; reflexivity).
  cbn [find]. apply find_loop_pure.
  intros item. destruct (get_prop_pure item languageCode) as [[code | e] Hcode].
  - exists (Returns (strict_eq_string code "en")). intros tr.
    unfold bind. now rewrite Hcode.
  - exists (Throws e). intros tr. unfold bind. now rewrite Hcode.
Qed.

(** Reading the response data performs no effect, and a metadata it
    returns has the [lengthSeconds] of the body as its [length] and a
    [subtitlesURL] of the form [link || null]. *)
Lemma read_metadata_pure (body : Value) :
  exists o,
    (forall tr, read_metadata body tr = (o, tr)) /\
    match o with
    | Returns md =>
        VideoMetaData.length md = property body lengthSeconds /\
        exists link, VideoMetaData.subtitlesURL md = Js.or link Null
    | Throws _ => True
    end.
Proof.
  unfold read_metadata, bind. unfold get_prop at 1 2.
  destruct (nullish body).
  { eexists. split; [intros tr; reflexivity | exact I]. }
  unfold ret at 1 2.
  destruct (get_prop_pure (property body subtitles) subtitles)
    as [[inner | e] Hinner];
    [| exists (Throws e); split; [intros tr; now rewrite Hinner | exact I]].
  destruct (find_english_pure inner) as [[found | e] Hfound];
    [| exists (Throws e); split;
       [intros tr; now rewrite Hinner, Hfound | exact I]].
  destruct (get_prop_optional_pure found url) as [[link | e] Hlink].
  - exists (Returns (VideoMetaData.mk (property body lengthSeconds)
                       (Js.or link Null))).
    split.
    + intros tr. now rewrite Hinner, Hfound, Hlink.
    + split; [reflexivity | now exists link].
  - exists (Throws e). split; [| exact I].
    intros tr. now rewrite Hinner, Hfound, Hlink.
Qed.

(** The action is the request followed by the reading of its answer. *)
Lemma GetVideoLengthAndSubtitles_unfold rt videoId :
  GetVideoLengthAndSubtitles rt videoId
  = try_catch
      (res <- perform (axios_request_call (video_info_options rt videoId))
                      (axios_request rt (video_info_options rt videoId)) ;;
       read_metadata (data res))
      (fun error =>
         log_error error ;;
         throw (new_Error "Failed to get video length and subtitles")).
Proof. reflexivity. Qed.

Lemma parseXMLContent_effects rt url tr :
  logs_failure_once tr (parseXMLContent rt url tr) /\
  calls (snd (parseXMLContent rt url tr))
  = calls tr ++
    axios_get_call url
    :: match axios_get rt url with
       | Returns res => [parseFromString_call (data res) "application/xml"]
       | Throws _ => []
       end.
Proof.
  unfold parseXMLContent. apply try_catch_effects.
  - run_monad. unfold getElementsByTagName_of.
    destruct (axios_get rt url) as [res | e]; cbn beta iota; [| reflexivity].
    destruct (parseFromString rt (data res) "application/xml")
      as [[doc |] | e]; cbn; now rewrite <- app_assoc.
  - now destruct (axios_get rt url).
  - now destruct (axios_get rt url).
Qed.

Lemma GetVideoLengthAndSubtitles_effects rt videoId tr :
  logs_failure_once tr (GetVideoLengthAndSubtitles rt videoId tr) /\
  calls (snd (GetVideoLengthAndSubtitles rt videoId tr))
  = calls tr ++ [axios_request_call (video_info_options rt videoId)].
Proof.
  rewrite GetVideoLengthAndSubtitles_unfold. apply try_catch_effects;
    [| reflexivity | reflexivity].
  run_monad.
  destruct (axios_request rt (video_info_options rt videoId)) as [res | e];
    [| reflexivity].
  destruct (read_metadata_pure (data res)) as [o [Ho _]].
  now rewrite Ho.
Qed.

Lemma CreateTitleAndDescription_effects rt transcript tr :
  logs_failure_once tr (CreateTitleAndDescription rt transcript tr) /\
  calls (snd (CreateTitleAndDescription rt transcript tr))
  = calls tr ++ [openai_parse_call (title_request transcript)].
Proof.
  unfold CreateTitleAndDescription. cbv zeta. apply try_catch_effects;
    [| reflexivity | reflexivity].
  run_monad. unfold first_parsed. run_monad.
  destruct (openai_parse rt _ (title_request transcript)) as [completion | e];
    [| reflexivity].
  destruct (choices completion) as [| choice rest]; [reflexivity |].
  destruct (message choice) as [m |]; [| reflexivity].
  now destruct (parsed m).
Qed.

Lemma ConvertToObjects_effects rt text slideCount tr :
  logs_failure_once tr (ConvertToObjects rt text slideCount tr) /\
  calls (snd (ConvertToObjects rt text slideCount tr))
  = calls tr ++
    [openai_parse_call (slides_request text (default_to 10 slideCount))].
Proof.
  unfold ConvertToObjects. cbv zeta. apply try_catch_effects;
    [| reflexivity | reflexivity].
  run_monad. unfold first_parsed. run_monad.
  destruct (openai_parse rt _ (slides_request text (default_to 10 slideCount)))
    as [completion | e]; [| reflexivity].
  destruct (choices completion) as [| choice rest]; [reflexivity |].
  destruct (message choice) as [m |]; [| reflexivity].
  now destruct (parsed m).
Qed.

Lemma CreatePowerpointFromArrayOfObjects_effects
      rt titleAndDescription slides userId tr :
  logs_failure_once tr
    (CreatePowerpointFromArrayOfObjects rt titleAndDescription slides userId tr) /\
  calls (snd (CreatePowerpointFromArrayOfObjects rt titleAndDescription slides
                userId tr))
  = calls tr ++
    [randomUUID_call;
     writeFile_call
       (Path.join ["/tmp"; presentation_fileName (randomUUID rt) userId])
       (build_presentation titleAndDescription slides)].
Proof.
  unfold CreatePowerpointFromArrayOfObjects. cbv zeta.
  apply try_catch_effects; [| reflexivity | reflexivity].
  run_monad.
  destruct (writeFile rt _ _); cbn; now rewrite <- app_assoc.
Qed.


(** What each action calls, and nothing else: one download and, when it
    succeeds, one parse; one video-info request; one model call with the
    request built from the arguments; one random identifier and one write.
    No call is repeated after a failure. *)
Theorem actions_call_each_service_once rt tr :
  (forall url,
      calls (snd (parseXMLContent rt url tr))
      = calls tr ++
        axios_get_call url
        :: match axios_get rt url with
           | Returns res => [parseFromString_call (data res) "application/xml"]
           | Throws _ => []
           end) /\
  (forall videoId,
      calls (snd (GetVideoLengthAndSubtitles rt videoId tr))
      = calls tr ++
        [axios_request_call
           (mkAxiosRequestConfig "GET" "https://yt-api.p.rapidapi.com/video/info"
              [("id", videoId)]
              [("x-rapidapi-key", process_env rt "RAPID_API_KEY");
               ("x-rapidapi-host", Some "yt-api.p.rapidapi.com")])]) /\
  (forall transcript,
      calls (snd (CreateTitleAndDescription rt transcript tr))
      = calls tr ++ [openai_parse_call (title_request transcript)]) /\
  (forall text slideCount,
      calls (snd (ConvertToObjects rt text slideCount tr))
      = calls tr ++
        [openai_parse_call (slides_request text (default_to 10 slideCount))]) /\
  (forall titleAndDescription slides userId,
      calls (snd (CreatePowerpointFromArrayOfObjects rt titleAndDescription
                    slides userId tr))
      = calls tr ++
        [randomUUID_call;
         writeFile_call
           (Path.join ["/tmp"; presentation_fileName (randomUUID rt) userId])
           (build_presentation titleAndDescription slides)]).
Proof.
  refine (conj _ (conj _ (conj _ (conj _ _)))); intros.
  - apply parseXMLContent_effects.
  - apply GetVideoLengthAndSubtitles_effects.
  - apply CreateTitleAndDescription_effects.
  - apply ConvertToObjects_effects.
  - apply CreatePowerpointFromArrayOfObjects_effects.
Qed.

(* ================================================================== *)
(** * More on the video metadata fetcher *)
(* ================================================================== *)

(** Once the request is answered, the outcome is that of reading the
    answer, a failure of the reading turned into the generic error. *)
Lemma GetVideoLengthAndSubtitles_answered rt videoId tr res :
  axios_request rt (video_info_options rt videoId) = Returns res ->
  fst (GetVideoLengthAndSubtitles rt videoId tr)
  = match fst (read_metadata (data res) []) with
    | Returns md => Returns md
    | Throws _ => Throws (new_Error "Failed to get video length and subtitles")
    end.
Proof.
  intros Hrequest.
  rewrite GetVideoLengthAndSubtitles_unfold. run_monad. rewrite Hrequest.
  cbn beta iota.
  destruct (read_metadata_pure (data res)) as [o [Ho _]].
  rewrite !Ho. now destruct o.
Qed.

(** Entries that are not English are passed over by the search. *)
Lemma find_loop_skips (before rest : list Value) (tr : Trace) :
  Forall (fun e => nullish e = false /\ is_english e = false) before ->
  find_loop (fun subtitle =>
               code <- get_prop subtitle languageCode ;;
               ret (strict_eq_string code "en")) (before ++ rest) tr
  = find_loop (fun subtitle =>
                 code <- get_prop subtitle languageCode ;;
                 ret (strict_eq_string code "en")) rest tr.
Proof.
  induction 1 as [| e before [Hnull Henglish] _ IH]; [reflexivity |].
  cbn [app find_loop]. unfold bind at 1. unfold get_prop at 1.
  rewrite Hnull. unfold bind, ret. fold (is_english e). now rewrite Henglish.
Qed.

Lemma find_loop_hit (entry : Value) (rest : list Value) (tr : Trace) :
  nullish entry = false ->
  is_english entry = true ->
  find_loop (fun subtitle =>
               code <- get_prop subtitle languageCode ;;
               ret (strict_eq_string code "en")) (entry :: rest) tr
  = (Returns entry, tr).
Proof.
  intros Hnull Henglish.
  cbn [find_loop]. unfold bind at 1. unfold get_prop at 1.
  rewrite Hnull. unfold bind, ret. fold (is_english entry). now rewrite Henglish.
Qed.

Lemma find_loop_null (bad : Value) (rest : list Value) (tr : Trace) :
  nullish bad = true ->
  exists e,
    find_loop (fun subtitle =>
                 code <- get_prop subtitle languageCode ;;
                 ret (strict_eq_string code "en")) (bad :: rest) tr
    = (Throws e, tr).
Proof.
  intros Hbad.
  cbn [find_loop]. unfold bind at 1. unfold get_prop at 1.
  rewrite Hbad. unfold bind, throw. eexists. reflexivity.
Qed.

(** Reading a body whose subtitle list is [entries]: what is left is the
    search and the reading of the [url]. *)
Lemma read_metadata_list (body track : list (string * Value))
      (entries : list Value) (tr : Trace) :
  lookup "subtitles" body = Some (Obj track) ->
  lookup "subtitles" track = Some (Arr entries) ->
  read_metadata (Obj body) tr
  = (found <- find_loop (fun subtitle =>
                           code <- get_prop subtitle languageCode ;;
                           ret (strict_eq_string code "en")) entries ;;
     link <- get_prop_optional found url ;;
     ret (VideoMetaData.mk (property (Obj body) lengthSeconds)
            (Js.or link Null))) tr.
Proof.
  intros Houter Hinner.
  unfold read_metadata. unfold bind at 1 2 3. unfold get_prop at 1 2.
  cbn [nullish]. unfold ret at 1 2.
  assert (Hread : property (Obj body) subtitles = Obj track).
  { cbn [property prop_string]. now rewrite Houter. }
  rewrite Hread. unfold get_prop at 1. cbn [nullish]. unfold ret at 1.
  cbn [property prop_string]. rewrite Hinner. reflexivity.
Qed.

(** The search stops at the first English entry: what follows it in the
    list is never looked at, be it [null] or another English entry, and
    [length] is what [lengthSeconds] holds. *)
Theorem GetVideoLengthAndSubtitles_stops_at_first_english
        rt videoId tr res body track before entry after :
  axios_request rt (video_info_options rt videoId) = Returns res ->
  data res = Obj body ->
  lookup "subtitles" body = Some (Obj track) ->
  lookup "subtitles" track = Some (Arr (before ++ entry :: after)) ->
  Forall (fun e => nullish e = false /\ is_english e = false) before ->
  is_english entry = true ->
  fst (GetVideoLengthAndSubtitles rt videoId tr)
  = Returns
      (VideoMetaData.mk
         (match lookup "lengthSeconds" body with
          | Some seconds => seconds
          | None => Undefined
          end)
         (if truthy (property entry url) then property entry url else Null)).
Proof.
  intros Hrequest Hbody Houter Hinner Hbefore Henglish.
  rewrite (GetVideoLengthAndSubtitles_answered rt videoId tr res Hrequest).
  rewrite Hbody, (read_metadata_list body track _ [] Houter Hinner).
  unfold bind at 1. rewrite (find_loop_skips before _ [] Hbefore).
  assert (Hnull : nullish entry = false).
  { destruct entry; try reflexivity; discriminate Henglish. }
  rewrite (find_loop_hit entry after [] Hnull Henglish).
  unfold bind, get_prop_optional, get_prop. rewrite Hnull.
  reflexivity.
Qed.

Lemma GetVideoLengthAndSubtitles_stops_at_first_english_witness :
  fst (GetVideoLengthAndSubtitles
         (sample_runtime sample_document
            (Obj (video_info_body (Str "212")
                    [subtitle_entry "en-US" "https://yt.example/en-US";
                     subtitle_entry "en" "https://yt.example/en";
                     Null])))
         "dQw4w9WgXcQ" [])
  = Returns (VideoMetaData.mk (Str "212") (Str "https://yt.example/en")).
Proof.
  refine (GetVideoLengthAndSubtitles_stops_at_first_english
            (sample_runtime sample_document _) "dQw4w9WgXcQ" []
            (mkAxiosResponse _)
            (video_info_body (Str "212")
               [subtitle_entry "en-US" "https://yt.example/en-US";
                subtitle_entry "en" "https://yt.example/en";
                Null])
            [("subtitles",
              Arr [subtitle_entry "en-US" "https://yt.example/en-US";
                   subtitle_entry "en" "https://yt.example/en";
                   Null])]
            [subtitle_entry "en-US" "https://yt.example/en-US"]
            (subtitle_entry "en" "https://yt.example/en")
            [Null] eq_refl eq_refl eq_refl eq_refl _ eq_refl).
  repeat constructor.
Defined.

(** A [null] entry met before any English entry makes the action throw its
    generic error, whatever follows it. *)
Theorem GetVideoLengthAndSubtitles_null_entry_throws
        rt videoId tr res body track before bad after :
  axios_request rt (video_info_options rt videoId) = Returns res ->
  data res = Obj body ->
  lookup "subtitles" body = Some (Obj track) ->
  lookup "subtitles" track = Some (Arr (before ++ bad :: after)) ->
  Forall (fun e => nullish e = false /\ is_english e = false) before ->
  nullish bad = true ->
  fst (GetVideoLengthAndSubtitles rt videoId tr)
  = Throws (new_Error "Failed to get video length and subtitles").
Proof.
  intros Hrequest Hbody Houter Hinner Hbefore Hbad.
  rewrite (GetVideoLengthAndSubtitles_answered rt videoId tr res Hrequest).
  rewrite Hbody, (read_metadata_list body track _ [] Houter Hinner).
  unfold bind at 1. rewrite (find_loop_skips before _ [] Hbefore).
  destruct (find_loop_null bad after [] Hbad) as [e He].
  now rewrite He.
Qed.

Lemma GetVideoLengthAndSubtitles_null_entry_throws_witness :
  fst (GetVideoLengthAndSubtitles
         (sample_runtime sample_document
            (Obj (video_info_body (Num 212)
                    [subtitle_entry "fr" "https://yt.example/fr";
                     Null;
                     subtitle_entry "en" "https://yt.example/en"])))
         "dQw4w9WgXcQ" [])
  = Throws (new_Error "Failed to get video length and subtitles").
Proof.
  refine (GetVideoLengthAndSubtitles_null_entry_throws
            (sample_runtime sample_document _) "dQw4w9WgXcQ" []
            (mkAxiosResponse _)
            (video_info_body (Num 212)
               [subtitle_entry "fr" "https://yt.example/fr";
                Null;
                subtitle_entry "en" "https://yt.example/en"])
            [("subtitles",
              Arr [subtitle_entry "fr" "https://yt.example/fr";
                   Null;
                   subtitle_entry "en" "https://yt.example/en"])]
            [subtitle_entry "fr" "https://yt.example/fr"]
            Null
            [subtitle_entry "en" "https://yt.example/en"]
            eq_refl eq_refl eq_refl eq_refl _ eq_refl).
  repeat constructor.
Defined.

(** A body that holds no array at [subtitles.subtitles], be it [null], a
    string, an object without the property or with something else
    there, makes the action throw its generic error. *)
Theorem GetVideoLengthAndSubtitles_without_subtitle_list
        rt videoId tr res :
  axios_request rt (video_info_options rt videoId) = Returns res ->
  (forall entries,
      property (property (data res) subtitles) subtitles <> Arr entries) ->
  fst (GetVideoLengthAndSubtitles rt videoId tr)
  = Throws (new_Error "Failed to get video length and subtitles").
Proof.
  intros Hrequest Hnone.
  rewrite (GetVideoLengthAndSubtitles_answered rt videoId tr res Hrequest).
  unfold read_metadata, bind. unfold get_prop at 1 2.
  destruct (nullish (data res)); [reflexivity |].
  unfold ret at 1 2. unfold get_prop at 1.
  destruct (nullish (property (data res) subtitles)); [reflexivity |].
  unfold ret at 1.
  destruct (property (property (data res) subtitles) subtitles)
    as [| | b | q | s | entries | props]; try reflexivity.
  now elim (Hnone entries).
Qed.

Lemma GetVideoLengthAndSubtitles_without_subtitle_list_witness :
  fst (GetVideoLengthAndSubtitles
         (sample_runtime sample_document
            (Obj [("lengthSeconds", Num 212); ("subtitles", Null)]))
         "dQw4w9WgXcQ" [])
  = Throws (new_Error "Failed to get video length and subtitles") /\
  fst (GetVideoLengthAndSubtitles
         (sample_runtime sample_document (Str "<html>Too Many Requests</html>"))
         "dQw4w9WgXcQ" [])
  = Throws (new_Error "Failed to get video length and subtitles").
Proof.
  split.
  - refine (GetVideoLengthAndSubtitles_without_subtitle_list
              (sample_runtime sample_document _) "dQw4w9WgXcQ" []
              (mkAxiosResponse _) eq_refl _).
    intros entries H. discriminate H.
  - refine (GetVideoLengthAndSubtitles_without_subtitle_list
              (sample_runtime sample_document _) "dQw4w9WgXcQ" []
              (mkAxiosResponse _) eq_refl _).
    intros entries H. discriminate H.
Defined.

(** Whenever the action returns, [length] is what the body holds at
    [lengthSeconds], unconverted ([undefined] when the body has no such
    property), and [subtitlesURL] is [null] or a truthy value: never
    [undefined], an empty string, [false] or zero. *)
Theorem GetVideoLengthAndSubtitles_returned_metadata rt videoId tr res md :
  axios_request rt (video_info_options rt videoId) = Returns res ->
  fst (GetVideoLengthAndSubtitles rt videoId tr) = Returns md ->
  VideoMetaData.length md = property (data res) lengthSeconds /\
  (VideoMetaData.subtitlesURL md = Null \/
   truthy (VideoMetaData.subtitlesURL md) = true).
Proof.
  intros Hrequest Hreturns.
  rewrite (GetVideoLengthAndSubtitles_answered rt videoId tr res Hrequest)
    in Hreturns.
  destruct (read_metadata_pure (data res)) as [o [Ho Hshape]].
  rewrite Ho in Hreturns. cbn [fst] in Hreturns.
  destruct o as [md' | e]; [| discriminate Hreturns].
  injection Hreturns as <-.
  destruct Hshape as [Hlength [link Hlink]].
  split; [exact Hlength |].
  rewrite Hlink. unfold Js.or.
  destruct (truthy link) eqn:Hlinktruthy; [right; exact Hlinktruthy | now left].
Qed.

Lemma GetVideoLengthAndSubtitles_returned_metadata_witness :
  VideoMetaData.length (VideoMetaData.mk Undefined Null) = Undefined /\
  (VideoMetaData.subtitlesURL (VideoMetaData.mk Undefined Null) = Null \/
   truthy (VideoMetaData.subtitlesURL (VideoMetaData.mk Undefined Null)) = true).
Proof.
  exact (GetVideoLengthAndSubtitles_returned_metadata
           (sample_runtime sample_document
              (Obj [("subtitles",
                     Obj [("subtitles",
                           Arr [Obj [("languageCode", Str "en");
                                     ("url", Str "")]])])]))
           "dQw4w9WgXcQ" [] (mkAxiosResponse _) _ eq_refl eq_refl).
Defined.

(* ================================================================== *)
(** * More on the subtitle parser *)
(* ================================================================== *)

(** When the parser builds no document the action throws its generic
    error, and among what is logged is the [TypeError] of the failed
    method call, which the [catch] prints. *)
Theorem parseXMLContent_without_document rt url tr res :
  axios_get rt url = Returns res ->
  parseFromString rt (data res) "application/xml" = Returns None ->
  fst (parseXMLContent rt url tr) = Throws (new_Error "Failed to parse XML content") /\
  exists cause,
    Js.name cause = "TypeError" /\
    In (console_error cause) (snd (parseXMLContent rt url tr)).
Proof.
  intros Hget Hparse.
  unfold parseXMLContent, getElementsByTagName_of. run_monad.
  rewrite Hget, Hparse. cbn.
  split; [reflexivity |].
  exists (TypeError
            "Cannot read properties of undefined (reading 'getElementsByTagName')").
  split; [reflexivity |].
  apply in_or_app. right. now left.
Qed.

Lemma parseXMLContent_without_document_witness :
  fst (parseXMLContent documentless_runtime "https://yt.example/en" [])
  = Throws (new_Error "Failed to parse XML content").
Proof.
  exact (proj1 (parseXMLContent_without_document documentless_runtime
                  "https://yt.example/en" [] (mkAxiosResponse (Str ""))
                  eq_refl eq_refl)).
Defined.

Lemma is_comment_or_pi_without_attributes (n : Dom.Node) :
  Dom.is_comment_or_pi (without_attributes n) = Dom.is_comment_or_pi n.
Proof. now destruct n. Qed.

Lemma tag_matches_without_attributes (tag : string) (n : Dom.Node) :
  Dom.tag_matches tag (without_attributes n) = Dom.tag_matches tag n.
Proof. now destruct n. Qed.

(** The text content of a node does not depend on attributes. *)
Lemma textContent_without_attributes (n : Dom.Node) :
  Dom.textContent (without_attributes n) = Dom.textContent n.
Proof.
  induction n as [tagName attributes kids IH | d | d | d | t d | nm]
    using Node_nested_ind; try reflexivity.
  cbn [without_attributes Dom.textContent]. f_equal.
  induction IH as [| k rest Hk _ IHrest]; [reflexivity |].
  cbn [map]. rewrite is_comment_or_pi_without_attributes, Hk, IHrest.
  reflexivity.
Qed.

Lemma flat_map_map {A B C : Type} (f : B -> list C) (g : A -> B) (l : list A) :
  flat_map f (map g l) = flat_map (fun a => f (g a)) l.
Proof.
  induction l as [| a rest IH]; simpl; [reflexivity | now rewrite IH].
Qed.

Lemma map_flat_map {A B C : Type} (g : B -> C) (f : A -> list B) (l : list A) :
  map g (flat_map f l) = flat_map (fun a => map g (f a)) l.
Proof.
  induction l as [| a rest IH]; simpl; [reflexivity |].
  now rewrite map_app, IH.
Qed.

(** The elements found in a document without attributes are those of the
    document, without their attributes. *)
Lemma visit_without_attributes (tag : string) (n : Dom.Node) :
  Dom.visit tag (without_attributes n)
  = map without_attributes (Dom.visit tag n).
Proof.
  induction n as [tagName attributes kids IH | d | d | d | t d | nm]
    using Node_nested_ind; try reflexivity.
  change (without_attributes (Dom.Element tagName attributes kids))
    with (Dom.Element tagName [] (map without_attributes kids)).
  cbn [Dom.visit]. rewrite map_app, flat_map_map, map_flat_map.
  rewrite (flat_map_Forall_ext _ _ _ IH).
  change (Dom.tag_matches tag (Dom.Element tagName [] (map without_attributes kids)))
    with (Dom.tag_matches tag (Dom.Element tagName attributes kids)).
  now destruct (Dom.tag_matches tag (Dom.Element tagName attributes kids)).
Qed.

Lemma fragments_without_attributes (doc : Dom.Document) (tag : string) :
  map fragment_of (Dom.getElementsByTagName (document_without_attributes doc) tag)
  = map fragment_of (Dom.getElementsByTagName doc tag).
Proof.
  unfold Dom.getElementsByTagName, document_without_attributes.
  cbn [Dom.documentChildNodes].
  rewrite flat_map_map.
  rewrite (flat_map_Forall_ext _ (fun n => map without_attributes (Dom.visit tag n))).
  - rewrite <- map_flat_map, map_map.
    apply map_ext. intros element. unfold fragment_of.
    now rewrite textContent_without_attributes.
  - apply Forall_forall. intros n _. apply visit_without_attributes.
Qed.

(** The fragments depend on the elements and their text only: two
    documents that differ in attributes, such as the start and duration of
    each caption, give the same result. *)
Theorem parseXMLContent_ignores_attributes
        rt rt' url url' tr tr' res res' doc doc' :
  axios_get rt url = Returns res ->
  parseFromString rt (data res) "application/xml" = Returns (Some doc) ->
  axios_get rt' url' = Returns res' ->
  parseFromString rt' (data res') "application/xml" = Returns (Some doc') ->
  document_without_attributes doc = document_without_attributes doc' ->
  fst (parseXMLContent rt url tr) = fst (parseXMLContent rt' url' tr').
Proof.
  intros Hget Hparse Hget' Hparse' Hsame.
  rewrite (parseXMLContent_parsed rt url tr res doc Hget Hparse).
  rewrite (parseXMLContent_parsed rt' url' tr' res' doc' Hget' Hparse').
  cbn [fst]. do 2 f_equal.
  rewrite <- (fragments_without_attributes doc "text").
  rewrite <- (fragments_without_attributes doc' "text").
  now rewrite Hsame.
Qed.

Lemma parseXMLContent_ignores_attributes_witness :
  fst (parseXMLContent (sample_runtime sample_document sample_video_info)
         "https://yt.example/en" [])
  = fst (parseXMLContent
           (sample_runtime (document_without_attributes sample_document)
              sample_video_info)
           "https://yt.example/en?fmt=srv1" []).
Proof.
  exact (parseXMLContent_ignores_attributes
           (sample_runtime sample_document sample_video_info)
           (sample_runtime (document_without_attributes sample_document)
              sample_video_info)
           "https://yt.example/en" "https://yt.example/en?fmt=srv1" [] []
           (mkAxiosResponse (Str "<transcript/>"))
           (mkAxiosResponse (Str "<transcript/>"))
           sample_document (document_without_attributes sample_document)
           eq_refl eq_refl eq_refl eq_refl eq_refl).
Defined.

(* ================================================================== *)
(** * More on the two generators *)
(* ================================================================== *)

Lemma string_append_cancel_l (a b c : string) :
  (a ++ b = a ++ c)%string -> b = c.
Proof.
  induction a as [| ch a IH]; simpl; intros H; [exact H |].
  injection H as H. exact (IH H).
Qed.

Lemma string_length_append (a b : string) :
  String.length (a ++ b) = String.length a + String.length b.
Proof.
  induction a as [| ch a IH]; simpl; [reflexivity | now rewrite IH].
Qed.

Lemma string_append_cancel_r (a b c : string) :
  (a ++ c = b ++ c)%string -> a = b.
Proof.
  revert b. induction a as [| ch a IH]; intros [| ch' b] H.
  - reflexivity.
  - apply (f_equal String.length) in H. simpl in H.
    rewrite string_length_append in H.
    exfalso. clear -H. induction (String.length c); simpl in H.
    + discriminate.
    + injection H as H. rewrite Nat.add_succ_r in H. auto.
  - apply (f_equal String.length) in H. simpl in H.
    rewrite string_length_append in H.
    exfalso. clear -H. induction (String.length c); simpl in H.
    + discriminate.
    + injection H as H. rewrite Nat.add_succ_r in H. auto.
  - simpl in H. injection H as Hch H. subst ch'. f_equal. exact (IH b H).
Qed.

(** The title prompt: fixed text, the transcript, fixed text. *)
Lemma title_promptTemplate_splice :
  exists before after : string,
  forall transcript : string,
    title_promptTemplate transcript = (before ++ transcript ++ after)%string.
Proof.
  exists (substring 0 349 (title_promptTemplate "")).
  exists (LF ++ "    ")%string.
  intros transcript.
  set (before := substring 0 349 (title_promptTemplate "")).
  vm_compute in before. subst before.
  unfold title_promptTemplate. cbn [String.concat].
  rewrite (string_append_assoc _ transcript).
  unfold LF. cbn [String.append].
  reflexivity.
Qed.

(** The transcript reaches the model as it is, between two fixed pieces of
    text after the system message, and two transcripts give the same
    prompt only when they are equal. *)
Theorem title_prompt_carries_transcript :
  exists before after : string,
    (forall transcript,
        messages (title_request transcript)
        = [mkChatMessage "system"
             "You are a helpful assistant designed to generate titles and descriptions";
           mkChatMessage "user" (before ++ transcript ++ after)%string]) /\
    (forall t1 t2,
        String.eqb (title_promptTemplate t1) (title_promptTemplate t2)
        = String.eqb t1 t2).
Proof.
  destruct title_promptTemplate_splice as [before [after Hsplice]].
  exists before, after. split.
  - intros transcript. cbn [title_request messages]. now rewrite Hsplice.
  - intros t1 t2.
    destruct (String.eqb_spec t1 t2) as [-> | Hne].
    + apply String.eqb_refl.
    + apply String.eqb_neq. intros H. apply Hne.
      rewrite !Hsplice in H.
      apply string_append_cancel_l in H.
      now apply string_append_cancel_r in H.
Qed.

Lemma string_of_uint_no_dot (u : Decimal.uint) (c : ascii) :
  In c (list_ascii_of_string (NilEmpty.string_of_uint u)) -> c <> "."%char.
Proof.
  induction u; simpl; intros H; try contradiction;
    (destruct H as [<- | H]; [discriminate | now apply IHu]).
Qed.

Lemma Number_toString_no_dot (n : Z) (c : ascii) :
  In c (list_ascii_of_string (Number_toString n)) -> c <> "."%char.
Proof.
  unfold Number_toString, NilZero.string_of_int, NilZero.string_of_uint.
  destruct (Z.to_int n) as [u | u]; destruct u; simpl; intros H;
    repeat (destruct H as [<- | H]; [discriminate |]);
    try contradiction; now apply string_of_uint_no_dot in H.
Qed.

Lemma Number_toString_inj (n m : Z) :
  Number_toString n = Number_toString m -> n = m.
Proof.
  unfold Number_toString. intros H.
  assert (Hnonnil : forall z, Z.to_int z <> Decimal.Pos Decimal.Nil /\
                              Z.to_int z <> Decimal.Neg Decimal.Nil).
  { intros [| p | p]; simpl; split; try discriminate;
      intros [= Hp]; now apply (Unsigned.to_uint_nonnil p). }
  assert (Hint : Some (Z.to_int n) = Some (Z.to_int m)).
  { rewrite <- (NilZero.isi (Z.to_int n)), <- (NilZero.isi (Z.to_int m));
      try apply Hnonnil.
    now rewrite H. }
  injection Hint as Hint.
  rewrite <- (DecimalZ.of_to n), <- (DecimalZ.of_to m). now rewrite Hint.
Qed.

(** A string without dots followed by a dot can be read back. *)
Lemma dot_terminated_inj (a b r1 r2 : string) :
  (forall c, In c (list_ascii_of_string a) -> c <> "."%char) ->
  (forall c, In c (list_ascii_of_string b) -> c <> "."%char) ->
  (a ++ String "." r1 = b ++ String "." r2)%string ->
  a = b /\ r1 = r2.
Proof.
  revert b. induction a as [| ch a IH]; intros [| ch' b] Ha Hb H; simpl in H.
  - injection H as H. now split.
  - injection H as Hch _. exfalso. apply (Hb ch'); [now left | now symmetry].
  - injection H as Hch _. exfalso. apply (Ha ch); [now left | exact Hch].
  - injection H as Hch H. subst ch'.
    destruct (IH b) as [Hab Hr]; [| | exact H |].
    + intros c Hc. apply Ha. now right.
    + intros c Hc. apply Hb. now right.
    + split; [now f_equal | exact Hr].
Qed.

Lemma slides_promptTemplate_parts :
  exists before between after : string,
  forall (text : string) (slideCount : Z),
    slides_promptTemplate text slideCount
    = (before ++ Number_toString slideCount
         ++ String "." (between ++ text ++ after))%string.
Proof.
  exists (substring 0 422 (slides_promptTemplate "" 0)).
  exists (LF ++ "        The text to process is as follows: ")%string.
  exists (LF ++ "    ")%string.
  intros text slideCount.
  set (before := substring 0 422 (slides_promptTemplate "" 0)).
  vm_compute in before. subst before.
  unfold slides_promptTemplate. cbn [String.concat].
  rewrite (string_append_assoc _ (Number_toString slideCount ++ ".")%string).
  rewrite (string_append_assoc (Number_toString slideCount) ".").
  rewrite (string_append_assoc _ text).
  unfold LF. cbn [String.append].
  reflexivity.
Qed.

(** The slide prompt determines both the text and the count it was built
    from: two prompts are equal only when both are. *)
Theorem slides_prompt_determines_text_and_count (t1 t2 : string) (K1 K2 : Z) :
  String.eqb (slides_promptTemplate t1 K1) (slides_promptTemplate t2 K2)
  = String.eqb t1 t2 && Z.eqb K1 K2.
Proof.
  destruct slides_promptTemplate_parts as [before [between [after Hparts]]].
  destruct (String.eqb_spec t1 t2) as [-> | Htext];
    destruct (Z.eqb_spec K1 K2) as [-> | Hcount]; cbn [andb].
  - apply String.eqb_refl.
  - apply String.eqb_neq. intros H. apply Hcount.
    rewrite !Hparts in H. apply string_append_cancel_l in H.
    apply dot_terminated_inj in H; try apply Number_toString_no_dot.
    now apply Number_toString_inj.
  - apply String.eqb_neq. intros H. apply Htext.
    rewrite !Hparts in H. apply string_append_cancel_l in H.
    apply dot_terminated_inj in H; try apply Number_toString_no_dot.
    destruct H as [_ H]. apply string_append_cancel_l in H.
    now apply string_append_cancel_r in H.
  - apply String.eqb_neq. intros H. apply Hcount.
    rewrite !Hparts in H. apply string_append_cancel_l in H.
    apply dot_terminated_inj in H; try apply Number_toString_no_dot.
    now apply Number_toString_inj.
Qed.

(** An answer that has a first choice but no payload: the error printed is
    the generic error itself, thrown inside the [try] and caught by its
    own [catch], which throws it anew. *)
Theorem generators_log_their_own_error_on_missing_payload rt tr :
  (forall transcript completion,
      openai_parse rt _ (title_request transcript) = Returns completion ->
      choices completion <> [] ->
      payload completion = None ->
      CreateTitleAndDescription rt transcript tr
      = (Throws (new_Error "Failed to generate title and description"),
         tr ++ [openai_parse_call (title_request transcript);
                console_error
                  (new_Error "Failed to generate title and description")])) /\
  (forall text slideCount completion,
      openai_parse rt _ (slides_request text (default_to 10 slideCount))
      = Returns completion ->
      choices completion <> [] ->
      payload completion = None ->
      ConvertToObjects rt text slideCount tr
      = (Throws (new_Error "Failed to convert text to objects"),
         tr ++ [openai_parse_call
                  (slides_request text (default_to 10 slideCount));
                console_error (new_Error "Failed to convert text to objects")])).
Proof.
  split.
  - intros transcript completion Hparse Hchoices Hpayload.
    unfold CreateTitleAndDescription. run_monad. unfold perform.
    rewrite Hparse. cbn beta iota.
    unfold payload in Hpayload. unfold first_parsed. run_monad.
    destruct (choices completion) as [| choice rest]; [now elim Hchoices |].
    rewrite Hpayload. cbn. now rewrite <- app_assoc.
  - intros text slideCount completion Hparse Hchoices Hpayload.
    unfold ConvertToObjects. run_monad. unfold perform.
    rewrite Hparse. cbn beta iota.
    unfold payload in Hpayload. unfold first_parsed. run_monad.
    destruct (choices completion) as [| choice rest]; [now elim Hchoices |].
    rewrite Hpayload. cbn. now rewrite <- app_assoc.
Qed.

Lemma generators_log_their_own_error_on_missing_payload_witness :
  CreateTitleAndDescription refusing_runtime "a transcript" []
  = (Throws (new_Error "Failed to generate title and description"),
     [openai_parse_call (title_request "a transcript");
      console_error (new_Error "Failed to generate title and description")]) /\
  ConvertToObjects refusing_runtime "a transcript" None []
  = (Throws (new_Error "Failed to convert text to objects"),
     [openai_parse_call (slides_request "a transcript" 10);
      console_error (new_Error "Failed to convert text to objects")]).
Proof.
  destruct (generators_log_their_own_error_on_missing_payload refusing_runtime [])
    as [Htitle Hslides].
  split.
  - refine (Htitle "a transcript" _ eq_refl _ eq_refl). discriminate.
  - refine (Hslides "a transcript" None _ eq_refl _ eq_refl). discriminate.
Defined.

(* ================================================================== *)
(** * More on the deck renderer *)
(* ================================================================== *)

(** A normalized absolute path is absolute. *)
Lemma normalize_absolute (s : string) :
  Path.starts_with_slash s = true ->
  Path.starts_with_slash (Path.normalize s) = true.
Proof.
  intros H. destruct s as [| c s]; [discriminate H |].
  unfold Path.normalize. cbn [String.eqb]. cbv zeta. rewrite H. cbn [negb].
  destruct (String.eqb _ ""); [reflexivity |].
  destruct (Path.ends_with_slash _); reflexivity.
Qed.

Lemma join_tmp_absolute (name : string) :
  Path.starts_with_slash (Path.join ["/tmp"; name]) = true.
Proof.
  unfold Path.join. cbn [filter String.eqb negb].
  destruct (negb (String.eqb name "")); apply normalize_absolute; reflexivity.
Qed.

(** Whatever the user identifier, slashes and dots included, a successful
    write returns the file name [presentation-<random-id>-userId=<user-id>.pptx],
    which contains the identifier, and as path the absolute path that
    [path.join] makes of [/tmp] and that name; what the write resolves to
    is not used. *)
Theorem CreatePowerpointFromArrayOfObjects_file_name
        rt titleAndDescription slides userId tr written :
  writeFile rt
    (Path.join ["/tmp"; presentation_fileName (randomUUID rt) userId])
    (build_presentation titleAndDescription slides)
  = Returns written ->
  exists file,
    fst (CreatePowerpointFromArrayOfObjects rt titleAndDescription slides
           userId tr)
    = Returns file /\
    fileName file
    = ("presentation-" ++ randomUUID rt ++ "-userId=" ++ userId ++ ".pptx")%string /\
    includes (fileName file) userId = true /\
    filePath file = Path.join ["/tmp"; fileName file] /\
    Path.starts_with_slash (filePath file) = true.
Proof.
  intros Hwrite.
  exists (mkGeneratedFile
            (presentation_fileName (randomUUID rt) userId)
            (Path.join ["/tmp"; presentation_fileName (randomUUID rt) userId])).
  refine (conj _ (conj _ (conj _ (conj _ _)))).
  - unfold CreatePowerpointFromArrayOfObjects. run_monad.
    now rewrite Hwrite.
  - reflexivity.
  - cbn [fileName]. unfold presentation_fileName.
    rewrite <- !string_append_assoc.
    rewrite (string_append_assoc _ userId ".pptx").
    apply includes_append.
  - reflexivity.
  - apply join_tmp_absolute.
Qed.

Lemma CreatePowerpointFromArrayOfObjects_file_name_witness :
  exists file,
    fst (CreatePowerpointFromArrayOfObjects
           (sample_runtime sample_document sample_video_info)
           sample_titleAndDescription sample_slides "u/../../srv/deck" [])
    = Returns file /\
    fileName file
    = "presentation-123e4567-e89b-42d3-a456-426614174000-userId=u/../../srv/deck.pptx" /\
    includes (fileName file) "u/../../srv/deck" = true.
Proof.
  destruct (CreatePowerpointFromArrayOfObjects_file_name
              (sample_runtime sample_document sample_video_info)
              sample_titleAndDescription sample_slides "u/../../srv/deck" [] _
              eq_refl)
    as [file [Hrun [Hname [Hincludes _]]]].
  exists file. split; [exact Hrun |]. split; [exact Hname | exact Hincludes].
Defined.

Lemma split_nonempty (s : string) : Path.split s <> [].
Proof.
  destruct s as [| c s]; cbn [Path.split]; [discriminate |].
  destruct (Ascii.eqb c "/"); [discriminate |].
  destruct (Path.split s); discriminate.
Qed.

Lemma split_tmp (name : string) :
  Path.split ("/tmp/" ++ name) = "" :: "tmp" :: Path.split name.
Proof. reflexivity. Qed.

Lemma split_presentation (rest : string) :
  exists seg more,
    Path.split ("presentation-" ++ rest) = ("presentation-" ++ seg)%string :: more.
Proof.
  destruct (Path.split rest) as [| seg more] eqn:Hsplit.
  - now elim (split_nonempty rest).
  - exists seg, more. cbn. now rewrite Hsplit.
Qed.

Lemma fold_step_without_dotdot (segs acc : list string) :
  ~ In ".." segs ->
  exists kept, fold_left (Path.step false) segs acc = kept ++ acc.
Proof.
  revert acc. induction segs as [| seg segs IH]; intros acc Hnone.
  - now exists [].
  - cbn [fold_left]. unfold Path.step at 2.
    destruct (String.eqb seg "" || String.eqb seg ".").
    + apply IH. intros Hin. apply Hnone. now right.
    + destruct (String.eqb_spec seg "..") as [-> | _].
      * elim Hnone. now left.
      * destruct (IH (seg :: acc)) as [kept Hkept].
        { intros Hin. apply Hnone. now right. }
        exists (kept ++ [seg]). rewrite Hkept. now rewrite <- app_assoc.
Qed.

Lemma concat_head (sep first : string) (l : list string) :
  exists tail, String.concat sep (first :: l) = (first ++ tail)%string.
Proof.
  destruct l as [| second l].
  - exists "". cbn. clear. induction first; simpl; [reflexivity | now f_equal].
  - eexists. cbn [String.concat]. reflexivity.
Qed.

Lemma join_tmp_without_dotdot (rest : string) :
  ~ In ".." (Path.split ("presentation-" ++ rest)) ->
  exists tail,
    Path.join ["/tmp"; ("presentation-" ++ rest)%string]
    = ("/tmp/presentation-" ++ tail)%string.
Proof.
  intros Hnone.
  destruct (split_presentation rest) as [seg [more Hsplit]].
  rewrite Hsplit in Hnone.
  assert (Hnorm : exists tail,
             Path.normalizeString ("/tmp/" ++ "presentation-" ++ rest) false
             = ("tmp/presentation-" ++ tail)%string).
  { unfold Path.normalizeString.
    rewrite (split_tmp ("presentation-" ++ rest)), Hsplit.
    cbn [fold_left].
    change (Path.step false (Path.step false (Path.step false [] "") "tmp")
              ("presentation-" ++ seg))
      with [("presentation-" ++ seg)%string; "tmp"].
    destruct (fold_step_without_dotdot more
                [("presentation-" ++ seg)%string; "tmp"]) as [kept Hkept].
    { intros Hin. apply Hnone. now right. }
    rewrite Hkept, rev_app_distr. cbn [rev app].
    destruct (concat_head "/" ("presentation-" ++ seg) (rev kept))
      as [tail Htail].
    exists (seg ++ tail)%string.
    change (String.concat "/" ("tmp" :: ("presentation-" ++ seg)%string :: rev kept))
      with ("tmp" ++ "/" ++ String.concat "/" (("presentation-" ++ seg)%string :: rev kept))%string.
    rewrite Htail. rewrite string_append_assoc. reflexivity. }
  destruct Hnorm as [tail Hnorm].
  assert (Hne : String.eqb ("presentation-" ++ rest) "" = false) by reflexivity.
  remember ("presentation-" ++ rest)%string as name eqn:Hname.
  unfold Path.join. cbn [filter].
  change (negb (String.eqb "/tmp" "")) with true. cbv iota.
  rewrite Hne. cbn [negb].
  change (String.concat "/" ["/tmp"; name]) with ("/tmp/" ++ name)%string.
  unfold Path.normalize. cbv zeta.
  change (Path.starts_with_slash ("/tmp/" ++ name)) with true.
  change (String.eqb ("/tmp/" ++ name) "") with false.
  cbn [negb]. rewrite Hnorm.
  change (String.eqb ("tmp/presentation-" ++ tail) "") with false.
  cbv iota.
  destruct (Path.ends_with_slash ("/tmp/" ++ name)).
  - exists (tail ++ "/")%string. reflexivity.
  - exists tail. reflexivity.
Qed.

(** When no segment of the file name is [..], the path stays under [/tmp]
    and begins with [/tmp/presentation-]: only a [..] between two slashes
    of the user identifier can take the file elsewhere. *)
Theorem CreatePowerpointFromArrayOfObjects_stays_under_tmp
        rt titleAndDescription slides userId tr written :
  ~ In ".." (Path.split (presentation_fileName (randomUUID rt) userId)) ->
  writeFile rt
    (Path.join ["/tmp"; presentation_fileName (randomUUID rt) userId])
    (build_presentation titleAndDescription slides)
  = Returns written ->
  exists file,
    fst (CreatePowerpointFromArrayOfObjects rt titleAndDescription slides
           userId tr)
    = Returns file /\
    String.prefix "/tmp/presentation-" (filePath file) = true.
Proof.
  intros Hnone Hwrite.
  exists (mkGeneratedFile
            (presentation_fileName (randomUUID rt) userId)
            (Path.join ["/tmp"; presentation_fileName (randomUUID rt) userId])).
  split.
  - unfold CreatePowerpointFromArrayOfObjects. run_monad. now rewrite Hwrite.
  - cbn [filePath].
    destruct (join_tmp_without_dotdot
                (randomUUID rt ++ "-userId=" ++ userId ++ ".pptx")%string Hnone)
      as [tail Htail].
    change (presentation_fileName (randomUUID rt) userId)
      with ("presentation-" ++ (randomUUID rt ++ "-userId=" ++ userId ++ ".pptx"))%string.
    rewrite Htail. apply prefix_append.
Qed.

Lemma CreatePowerpointFromArrayOfObjects_stays_under_tmp_witness :
  exists file,
    fst (CreatePowerpointFromArrayOfObjects
           (sample_runtime sample_document sample_video_info)
           sample_titleAndDescription sample_slides "../team//./42/.." [])
    = Returns file /\
    String.prefix "/tmp/presentation-" (filePath file) = true.
Proof.
  refine (CreatePowerpointFromArrayOfObjects_stays_under_tmp
            (sample_runtime sample_document sample_video_info)
            sample_titleAndDescription sample_slides "../team//./42/.." [] _
            _ eq_refl).
  cbn. intuition discriminate.
Defined.

Lemma text_bullets_from (content : list string) (index : nat) :
  map Pptx.text (bullets_from index content) = content.
Proof.
  revert index. induction content as [| bullet rest IH]; intros index;
    cbn [bullets_from map Pptx.text]; [reflexivity | now rewrite IH].
Qed.

Lemma entry_of_content_slide (entry : SlideContent.t) :
  entry_of_slide (content_slide entry) = Some entry.
Proof.
  destruct entry as [title content].
  unfold entry_of_slide, content_slide.
  cbn [Pptx.objects Pptx.text SlideContent.title SlideContent.content].
  now rewrite text_bullets_from.
Qed.

(** The deck can be read back: the first slide gives the title and the
    description, the slides after it the entries, each with its title and
    its content strings in order.  Nothing is dropped, merged or
    reordered. *)
Theorem build_presentation_read_back titleAndDescription slides :
  exists first rest,
    Pptx.slides (build_presentation titleAndDescription slides) = first :: rest /\
    titleAndDescription_of_slide first = Some titleAndDescription /\
    map entry_of_slide rest = map Some slides.
Proof.
  exists (title_slide titleAndDescription), (map content_slide slides).
  split; [apply build_presentation_slides |].
  split; [now destruct titleAndDescription |].
  rewrite map_map. apply map_ext. apply entry_of_content_slide.
Qed.

Lemma inject_nat_nonneg (n : nat) : (0 <= inject_Z (Z.of_nat n))%Q.
Proof.
  change 0%Q with (inject_Z 0). rewrite <- Zle_Qle. lia.
Qed.

Lemma inject_nat_step (i j : nat) :
  i < j -> (inject_Z (Z.of_nat i) + 1 <= inject_Z (Z.of_nat j))%Q.
Proof.
  intros H. change 1%Q with (inject_Z 1).
  rewrite <- inject_Z_plus, <- Zle_Qle. lia.
Qed.

(** On a content slide the text boxes come one under the other: every box
    ends above the top of each box added after it, so heading and bullets
    never overlap. *)
Theorem content_slide_boxes_do_not_overlap
        titleAndDescription slides k slide i j upper lower :
  nth_error (Pptx.slides (build_presentation titleAndDescription slides)) (S k)
  = Some slide ->
  i < j ->
  nth_error (Pptx.objects slide) i = Some upper ->
  nth_error (Pptx.objects slide) j = Some lower ->
  exists top bottom top' bottom',
    vertical_extent upper = Some (top, bottom) /\
    vertical_extent lower = Some (top', bottom') /\
    (top < bottom)%Q /\ (bottom < top')%Q.
Proof.
  intros Hslide Hij Hupper Hlower.
  rewrite build_presentation_slides in Hslide. cbn [nth_error] in Hslide.
  rewrite nth_error_map in Hslide.
  destruct (nth_error slides k) as [entry |]; [| discriminate Hslide].
  cbn [option_map] in Hslide. injection Hslide as <-.
  cbn [content_slide Pptx.objects] in Hupper, Hlower.
  destruct j as [| j']; [lia |].
  cbn [nth_error] in Hlower. rewrite nth_error_bullets_from in Hlower.
  destruct (nth_error (SlideContent.content entry) j') as [below |];
    [| discriminate Hlower].
  cbn [option_map Nat.add] in Hlower. injection Hlower as <-.
  destruct i as [| i'].
  - cbn [nth_error] in Hupper. injection Hupper as <-.
    do 4 eexists.
    split; [reflexivity |]. split; [reflexivity |].
    pose proof (inject_nat_nonneg j'). split; lra.
  - cbn [nth_error] in Hupper. rewrite nth_error_bullets_from in Hupper.
    destruct (nth_error (SlideContent.content entry) i') as [above |];
      [| discriminate Hupper].
    cbn [option_map Nat.add] in Hupper. injection Hupper as <-.
    do 4 eexists.
    split; [reflexivity |]. split; [reflexivity |].
    assert (Hlt : i' < j') by lia.
    pose proof (inject_nat_step i' j' Hlt). split; lra.
Qed.

Lemma content_slide_boxes_do_not_overlap_witness :
  exists top bottom top' bottom',
    vertical_extent
      (Pptx.mkTextObject "Carbon is fixed" (bullet_text_options 0))
    = Some (top, bottom) /\
    vertical_extent
      (Pptx.mkTextObject "The cycle restarts" (bullet_text_options 2))
    = Some (top', bottom') /\
    (top < bottom)%Q /\ (bottom < top')%Q.
Proof.
  exact (content_slide_boxes_do_not_overlap sample_titleAndDescription
           sample_slides 1 _ 1 3 _ _ eq_refl (le_S _ _ (le_n 2)) eq_refl eq_refl).
Defined.

(* ================================================================== *)
(** * Failures, component by component *)
(* ================================================================== *)


